(** * User I/O control of Grbl_ESP32 (user_io_control.cpp)

    A shallow embedding of the per-channel state machine [UserIoControl]
    (methods [on], [off], [update] and the setters) and of the dispatcher
    [sys_io_control], followed by the properties of the specification that
    are stated about them.

    Conventions of the embedding.
    - Every C integer is a [Z].  A call converts each argument to the type of
      its parameter: a parameter declared [uintN_t] is reduced with
      [wrap N] on entry, and unsigned 32-bit arithmetic is reduced with
      [wrap 32] where the source computes in that type.
    - A method of the class takes the object and returns the updated object;
      it runs in the state monad [M] over the board [Esp32], which holds what
      the Arduino/ESP-IDF calls of the source read and write: the LEDC duty
      registers, the GPIO levels and the microsecond timer.
    - The microsecond timer is an arbitrary sequence of readings: the k-th
      call of [esp_timer_get_time] returns [timer k].  Nothing is assumed
      about the sequence, so a statement for every board is a statement for
      every timing of the calls. *)

From Stdlib Require Import ZArith Lia Bool.
From stdpp Require Import base gmap.

Local Open Scope Z_scope.

(** ** Integer conversions *)

(** Conversion to an unsigned integer type of [w] bits. *)
Definition wrap (w : Z) (x : Z) : Z := x mod 2 ^ w.

(** ** The macros of user_io_control.h

    The header is not among the sources, so the macros it defines are taken
    as parameters of the development: the three mode numbers, the phase
    numbers and the default PWM resolution used by the duty computations. *)
Class UserIoHeader := {
  USER_IO_MODE_ON_OFF : Z;
  USER_IO_MODE_SPIKE_HOLD_OFF : Z;
  USER_MODE_PWM_LOW_HIGH : Z;
  USER_IO_PHASE_NONE : Z;
  USER_IO_PHASE_SPIKE : Z;
  USER_IO_PHASE_HOLD : Z;
  USER_IO_PULSE_RES_BITS : Z
}.

(** ** The board *)

Record Esp32 := {
  ledc : gmap Z Z;            (* LEDC channel -> duty last written *)
  ledc_writes : nat;          (* number of ledcWrite calls so far *)
  gpio : gmap Z bool;         (* pin -> level last written by digitalWrite *)
  timer : nat -> Z;           (* the readings of the microsecond timer *)
  timer_reads : nat;          (* number of readings consumed so far *)
  planner_blocks : nat        (* motion blocks queued and not yet executed *)
}.

Definition M (A : Type) : Type := Esp32 -> A * Esp32.

#[export] Instance M_ret : MRet M := fun A (a : A) w => (a, w).

#[export] Instance M_bind : MBind M :=
  fun A B (k : A -> M B) (m : M A) w => let (a, w') := m w in k a w'.

(** [esp_timer_get_time()]: the next reading of the timer. *)
Definition esp_timer_get_time : M Z :=
  fun w => (timer w (timer_reads w),
            {| ledc := ledc w; ledc_writes := ledc_writes w; gpio := gpio w;
               timer := timer w; timer_reads := S (timer_reads w);
               planner_blocks := planner_blocks w |}).

(** [ledcRead(chan)]: the duty register of the channel, 0 before any write. *)
Definition ledcRead (chan : Z) : M Z :=
  fun w => (default 0 (ledc w !! chan), w).

(** [ledcWrite(chan, duty)]. *)
Definition ledcWrite (chan duty : Z) : M unit :=
  fun w => (tt,
            {| ledc := <[chan := duty]> (ledc w);
               ledc_writes := S (ledc_writes w); gpio := gpio w;
               timer := timer w; timer_reads := timer_reads w;
               planner_blocks := planner_blocks w |}).

(** [digitalWrite(pin, val)]. *)
Definition digitalWrite (pin : Z) (val : bool) : M unit :=
  fun w => (tt,
            {| ledc := ledc w; ledc_writes := ledc_writes w;
               gpio := <[pin := val]> (gpio w);
               timer := timer w; timer_reads := timer_reads w;
               planner_blocks := planner_blocks w |}).

(** [protocol_buffer_synchronize()]: returns once the planner is empty. *)
Definition protocol_buffer_synchronize : M unit :=
  fun w => (tt,
            {| ledc := ledc w; ledc_writes := ledc_writes w; gpio := gpio w;
               timer := timer w; timer_reads := timer_reads w;
               planner_blocks := 0%nat |}).

(** Modelled from the spec: [mapConstrain] of the firmware's utility code is
    not among the sources.  The spec describes the percent-to-duty mapping as
    a linear map truncating to integer; the name says the input is first
    constrained to the input range.  The source calls it on floats and
    converts the result to [uint32_t]; for the operands that occur here (a
    percentage and an upper end below 2^17) the product is exact in single
    precision and the quotient is at least 1/100 away from the next integer,
    so the truncated float result is the integer quotient below. *)
Definition mapConstrain (x in_min in_max out_min out_max : Z) : Z :=
  let x := if x <? in_min then in_min else x in
  let x := if x >? in_max then in_max else x in
  (x - in_min) * (out_max - out_min) / (in_max - in_min) + out_min.

(** ** The class UserIoControl

    The members of the class.  Their declarations are in the header; each
    member holds the value the source assigns to it.  The deadlines
    [_spike_end] and [_hold_end] receive sums with the 64-bit reading of
    [esp_timer_get_time]; these sums are kept as they are. *)

Record UserIoControl := {
  _pin_num : Z;
  _channel_num : Z;
  _mode : Z;
  _gcode_num : Z;
  _phase : Z;
  _isOn : bool;
  _pwm_freq : Z;
  _pwm_resolution_bits : Z;
  _spike_length : Z;
  _hold_length : Z;
  _spike_percent : Z;
  _hold_percent : Z;
  _pwm_duty_low : Z;
  _pwm_duty_high : Z;
  _spike_end : Z;
  _hold_end : Z
}.

(** [UserIoControl::UserIoControl]: the constructor stores its four
    arguments, the mode unchecked; the other members start from the
    initialisers of the class declaration, given here by [init]. *)
Definition new_UserIoControl (init : UserIoControl)
    (gcode_number pin_num channel_num mode : Z) : UserIoControl :=
  let gcode_number := wrap 8 gcode_number in
  let channel_num := wrap 8 channel_num in
  let mode := wrap 8 mode in
  {| _pin_num := pin_num; _channel_num := channel_num; _mode := mode;
     _gcode_num := gcode_number; _phase := _phase init;
     _isOn := _isOn init; _pwm_freq := _pwm_freq init;
     _pwm_resolution_bits := _pwm_resolution_bits init;
     _spike_length := _spike_length init;
     _hold_length := _hold_length init;
     _spike_percent := _spike_percent init;
     _hold_percent := _hold_percent init;
     _pwm_duty_low := _pwm_duty_low init;
     _pwm_duty_high := _pwm_duty_high init;
     _spike_end := _spike_end init; _hold_end := _hold_end init |}.

(** Assignments to single members. *)
Definition assign_mode (v : Z) (c : UserIoControl) : UserIoControl :=
  {| _pin_num := _pin_num c; _channel_num := _channel_num c; _mode := v;
     _gcode_num := _gcode_num c; _phase := _phase c; _isOn := _isOn c;
     _pwm_freq := _pwm_freq c;
     _pwm_resolution_bits := _pwm_resolution_bits c;
     _spike_length := _spike_length c; _hold_length := _hold_length c;
     _spike_percent := _spike_percent c; _hold_percent := _hold_percent c;
     _pwm_duty_low := _pwm_duty_low c; _pwm_duty_high := _pwm_duty_high c;
     _spike_end := _spike_end c; _hold_end := _hold_end c |}.

Definition assign_phase (v : Z) (c : UserIoControl) : UserIoControl :=
  {| _pin_num := _pin_num c; _channel_num := _channel_num c;
     _mode := _mode c; _gcode_num := _gcode_num c; _phase := v;
     _isOn := _isOn c; _pwm_freq := _pwm_freq c;
     _pwm_resolution_bits := _pwm_resolution_bits c;
     _spike_length := _spike_length c; _hold_length := _hold_length c;
     _spike_percent := _spike_percent c; _hold_percent := _hold_percent c;
     _pwm_duty_low := _pwm_duty_low c; _pwm_duty_high := _pwm_duty_high c;
     _spike_end := _spike_end c; _hold_end := _hold_end c |}.

Definition assign_isOn (v : bool) (c : UserIoControl) : UserIoControl :=
  {| _pin_num := _pin_num c; _channel_num := _channel_num c;
     _mode := _mode c; _gcode_num := _gcode_num c; _phase := _phase c;
     _isOn := v; _pwm_freq := _pwm_freq c;
     _pwm_resolution_bits := _pwm_resolution_bits c;
     _spike_length := _spike_length c; _hold_length := _hold_length c;
     _spike_percent := _spike_percent c; _hold_percent := _hold_percent c;
     _pwm_duty_low := _pwm_duty_low c; _pwm_duty_high := _pwm_duty_high c;
     _spike_end := _spike_end c; _hold_end := _hold_end c |}.

Definition assign_pwm_freq (v : Z) (c : UserIoControl) : UserIoControl :=
  {| _pin_num := _pin_num c; _channel_num := _channel_num c;
     _mode := _mode c; _gcode_num := _gcode_num c; _phase := _phase c;
     _isOn := _isOn c; _pwm_freq := v;
     _pwm_resolution_bits := _pwm_resolution_bits c;
     _spike_length := _spike_length c; _hold_length := _hold_length c;
     _spike_percent := _spike_percent c; _hold_percent := _hold_percent c;
     _pwm_duty_low := _pwm_duty_low c; _pwm_duty_high := _pwm_duty_high c;
     _spike_end := _spike_end c; _hold_end := _hold_end c |}.

Definition assign_pwm_resolution_bits (v : Z) (c : UserIoControl)
  : UserIoControl :=
  {| _pin_num := _pin_num c; _channel_num := _channel_num c;
     _mode := _mode c; _gcode_num := _gcode_num c; _phase := _phase c;
     _isOn := _isOn c; _pwm_freq := _pwm_freq c;
     _pwm_resolution_bits := v;
     _spike_length := _spike_length c; _hold_length := _hold_length c;
     _spike_percent := _spike_percent c; _hold_percent := _hold_percent c;
     _pwm_duty_low := _pwm_duty_low c; _pwm_duty_high := _pwm_duty_high c;
     _spike_end := _spike_end c; _hold_end := _hold_end c |}.

Definition assign_spike_end (v : Z) (c : UserIoControl) : UserIoControl :=
  {| _pin_num := _pin_num c; _channel_num := _channel_num c;
     _mode := _mode c; _gcode_num := _gcode_num c; _phase := _phase c;
     _isOn := _isOn c; _pwm_freq := _pwm_freq c;
     _pwm_resolution_bits := _pwm_resolution_bits c;
     _spike_length := _spike_length c; _hold_length := _hold_length c;
     _spike_percent := _spike_percent c; _hold_percent := _hold_percent c;
     _pwm_duty_low := _pwm_duty_low c; _pwm_duty_high := _pwm_duty_high c;
     _spike_end := v; _hold_end := _hold_end c |}.

Definition assign_hold_end (v : Z) (c : UserIoControl) : UserIoControl :=
  {| _pin_num := _pin_num c; _channel_num := _channel_num c;
     _mode := _mode c; _gcode_num := _gcode_num c; _phase := _phase c;
     _isOn := _isOn c; _pwm_freq := _pwm_freq c;
     _pwm_resolution_bits := _pwm_resolution_bits c;
     _spike_length := _spike_length c; _hold_length := _hold_length c;
     _spike_percent := _spike_percent c; _hold_percent := _hold_percent c;
     _pwm_duty_low := _pwm_duty_low c; _pwm_duty_high := _pwm_duty_high c;
     _spike_end := _spike_end c; _hold_end := v |}.

Section Methods.

Context `{UserIoHeader}.

(** [UserIoControl::_write_pwm]: the register is written only when the duty
    changes. *)
Definition _write_pwm (duty : Z) (c : UserIoControl) : M unit :=
  let duty := wrap 32 duty in
  d ← ledcRead (_channel_num c);
  if negb (d =? duty) then ledcWrite (_channel_num c) duty else mret tt.

(** The initialiser of [duty] in [_write_percent]: the upper end of the duty
    range is [(1<<USER_IO_PULSE_RES_BITS)-1], computed from the macro. *)
Definition percent_duty (percent : Z) : Z :=
  mapConstrain percent 0 100 0 (Z.shiftl 1 USER_IO_PULSE_RES_BITS - 1).

(** [UserIoControl::_write_percent]. *)
Definition _write_percent (percent : Z) (c : UserIoControl) : M unit :=
  let percent := wrap 8 percent in
  let duty := percent_duty percent in
  _write_pwm duty c.

(** [UserIoControl::on].  The [switch] is the cascade of its case labels in
    the order of the source.  [duration * 1000] is a product of a [uint32_t]
    and an [int], computed in 32 bits unsigned; [_spike_length] is set
    through a [uint16_t] parameter, its product with 1000 fits. *)
Definition on (isOn : bool) (duration : Z) (c : UserIoControl)
  : M UserIoControl :=
  let duration := wrap 32 duration in
  c ← (if _mode c =? USER_IO_MODE_ON_OFF then
          digitalWrite (_pin_num c) isOn;; mret c
        else if _mode c =? USER_IO_MODE_SPIKE_HOLD_OFF then
          if isOn then
            let c := assign_phase USER_IO_PHASE_SPIKE c in
            t ← esp_timer_get_time;
            let c := assign_spike_end (t + _spike_length c * 1000) c in
            c ← (if duration =? 0 then
                    (* continuous hold *)
                    mret (assign_hold_end 0 c)
                  else
                    (* off after duration *)
                    t ← esp_timer_get_time;
                    mret (assign_hold_end (t + wrap 32 (duration * 1000)) c));
            _write_percent (_spike_percent c) c;; mret c
          else
            _write_pwm 0 c;; mret c
        else if _mode c =? USER_MODE_PWM_LOW_HIGH then
          if isOn then
            let c := assign_phase USER_IO_PHASE_HOLD c in
            c ← (if duration =? 0 then
                    mret (assign_hold_end 0 c)
                  else
                    t ← esp_timer_get_time;
                    mret (assign_hold_end (t + wrap 32 (duration * 1000)) c));
            _write_pwm (_pwm_duty_high c) c;; mret c
          else
            _write_pwm (_pwm_duty_low c) c;; mret c
        else
          if isOn then
            _write_pwm (Z.shiftl 1 USER_IO_PULSE_RES_BITS) c;; mret c
          else
            _write_pwm 0 c;; mret c);
  mret (assign_isOn isOn c).

(** [UserIoControl::off]. *)
Definition off (c : UserIoControl) : M UserIoControl :=
  (if _mode c =? USER_IO_MODE_ON_OFF then
     digitalWrite (_pin_num c) false
   else if _mode c =? USER_MODE_PWM_LOW_HIGH then
     _write_pwm (_pwm_duty_low c) c
   else
     _write_pwm 0 c);;
  mret (assign_isOn false c).

(** [UserIoControl::isOn]. *)
Definition isOn (c : UserIoControl) : bool := _isOn c.

(** [UserIoControl::set_mode]. *)
Definition set_mode (mode : Z) (c : UserIoControl) : UserIoControl :=
  let mode := wrap 8 mode in
  if (mode >? 0) && (mode <? 3) then assign_mode mode c else c.

(** [UserIoControl::set_pwm_freq_bits]. *)
Definition set_pwm_freq_bits (pwm_freq bit_num : Z) (c : UserIoControl)
  : UserIoControl :=
  let pwm_freq := wrap 32 pwm_freq in
  let bit_num := wrap 8 bit_num in
  let c := if (pwm_freq >=? 50) && (pwm_freq <=? 10000)
           then assign_pwm_freq pwm_freq c else c in
  if (bit_num >=? 8) && (bit_num <=? 16)
  then assign_pwm_resolution_bits bit_num c else c.

(** [UserIoControl::needsTimerUpdates]. *)
Definition needsTimerUpdates (c : UserIoControl) : bool :=
  (_mode c =? USER_IO_MODE_SPIKE_HOLD_OFF)
  || (_mode c =? USER_MODE_PWM_LOW_HIGH).

(** How a block of [update] ends: with a [return], or by reaching its end,
    after which the next statement of the function runs. *)
Inductive flow :=
  | Returned (c : UserIoControl)
  | Falls (c : UserIoControl).

(** The body of [if (_mode == USER_IO_MODE_SPIKE_HOLD_OFF)] in [update]. *)
Definition update_spike_hold_off (c : UserIoControl) : M flow :=
  r ← (if _phase c =? USER_IO_PHASE_SPIKE then
          t ← esp_timer_get_time;
          if t >? _spike_end c then
            let c := assign_phase USER_IO_PHASE_HOLD c in
            _write_percent (_hold_percent c) c;; mret (Returned c)
          else mret (Falls c)
        else mret (Falls c));
  match r with
  | Returned c => mret (Returned c)
  | Falls c =>
      if _phase c =? USER_IO_PHASE_HOLD then
        if _hold_end c =? 0 then mret (Returned c)
        else
          t ← esp_timer_get_time;
          if t >? _hold_end c then
            _write_pwm 0 c;; mret (Returned (assign_isOn false c))
          else mret (Falls c)
      else mret (Falls c)
  end.

(** The body of [if (_mode == USER_MODE_PWM_LOW_HIGH)] in [update]. *)
Definition update_pwm_low_high (c : UserIoControl) : M flow :=
  if _phase c =? USER_IO_PHASE_HOLD then
    if _hold_end c =? 0 then mret (Returned c)
    else
      t ← esp_timer_get_time;
      if t >? _hold_end c then
        _write_pwm (_pwm_duty_low c) c;;
        mret (Returned (assign_isOn false c))
      else mret (Falls c)
  else mret (Falls c).

(** [UserIoControl::update]. *)
Definition update (c : UserIoControl) : M UserIoControl :=
  if negb (_isOn c) then mret c
  else if _mode c =? USER_IO_MODE_ON_OFF then mret c
  else
    r ← (if _mode c =? USER_IO_MODE_SPIKE_HOLD_OFF
          then update_spike_hold_off c else mret (Falls c));
    match r with
    | Returned c => mret c
    | Falls c =>
        r ← (if _mode c =? USER_MODE_PWM_LOW_HIGH
              then update_pwm_low_high c else mret (Falls c));
        match r with
        | Returned c => mret c
        | Falls c => mret c
        end
    end.

(** [n] calls of [update] in a row, as the polling task issues them. *)
Fixpoint updates (n : nat) (c : UserIoControl) : M UserIoControl :=
  match n with
  | O => mret c
  | S n => c ← update c; updates n c
  end.

(** ** The channel objects and the dispatcher *)

(** The global objects [Pin1_UserIoControl] .. [Pin6_UserIoControl], keyed by
    their number; object [n] exists when [USER_DIGITAL_PIN_n] is defined.
    (The dispatcher refers to the objects 5 and 6 by these names, and that
    is what is modelled; the declarations under [USER_DIGITAL_PIN_5] and
    [USER_DIGITAL_PIN_6] in the source use the names of objects 3 and 4.) *)
Record Grbl := {
  pins : gmap Z UserIoControl;
  board : Esp32
}.

(** [#ifdef USER_DIGITAL_PIN_n]. *)
Definition defined (n : Z) (g : Grbl) : bool :=
  bool_decide (is_Some (pins g !! n)).

(** [Pin<n>_UserIoControl.on(turnOn, duration)]. *)
Definition Pin_on (n : Z) (turnOn : bool) (duration : Z) (g : Grbl) : Grbl :=
  match pins g !! n with
  | Some c =>
      let (c', w) := on turnOn duration c (board g) in
      {| pins := <[n := c']> (pins g); board := w |}
  | None => g
  end.

(** [io_num_mask & 1<<n] taken as a condition. *)
Definition mask_bit (io_num_mask n : Z) : bool :=
  negb (Z.land io_num_mask (Z.shiftl 1 n) =? 0).

(** The call [protocol_buffer_synchronize()] made from outside the class. *)
Definition synced (g : Grbl) : Grbl :=
  {| pins := pins g; board := snd (protocol_buffer_synchronize (board g)) |}.

(** [sys_io_control]. *)
Definition sys_io_control (io_num_mask : Z) (turnOn : bool) (duration : Z)
    (g : Grbl) : Grbl :=
  let io_num_mask := wrap 8 io_num_mask in
  let duration := wrap 16 duration in
  let g := synced g in
  if defined 1 g && mask_bit io_num_mask 1 then Pin_on 1 turnOn duration g
  else if defined 2 g && mask_bit io_num_mask 2 then Pin_on 2 turnOn duration g
  else if defined 3 g && mask_bit io_num_mask 3 then Pin_on 3 turnOn duration g
  else if defined 4 g && mask_bit io_num_mask 4 then Pin_on 4 turnOn duration g
  else if defined 5 g && mask_bit io_num_mask 5 then Pin_on 5 turnOn duration g
  else if defined 6 g && mask_bit io_num_mask 6 then Pin_on 6 turnOn duration g
  else g.

(** The case labels of the [switch] statements are distinct constants, as C
    requires of one [switch]. *)
Definition case_labels_distinct : Prop :=
  USER_IO_MODE_ON_OFF <> USER_IO_MODE_SPIKE_HOLD_OFF /\
  USER_IO_MODE_ON_OFF <> USER_MODE_PWM_LOW_HIGH /\
  USER_IO_MODE_SPIKE_HOLD_OFF <> USER_MODE_PWM_LOW_HIGH.

(** The spike phase and the hold phase have different numbers. *)
Definition phases_distinct : Prop :=
  USER_IO_PHASE_SPIKE <> USER_IO_PHASE_HOLD.

(** The duty a channel's PWM output is at: what [ledcRead] returns. *)
Definition duty_of (c : UserIoControl) (w : Esp32) : Z :=
  fst (ledcRead (_channel_num c) w).

(** The board after [k] further readings of the timer and nothing else. *)
Definition consume (k : nat) (w : Esp32) : Esp32 :=
  {| ledc := ledc w; ledc_writes := ledc_writes w; gpio := gpio w;
     timer := timer w; timer_reads := (k + timer_reads w)%nat;
     planner_blocks := planner_blocks w |}.

End Methods.

(** ** The remaining setters

    These four store their arguments as they are: the only conversion is
    the one to the parameter type. *)

(** [UserIoControl::set_spike_hold_perecent]. *)
Definition set_spike_hold_perecent (spike_percent hold_percent : Z)
    (c : UserIoControl) : UserIoControl :=
  let spike_percent := wrap 8 spike_percent in
  let hold_percent := wrap 8 hold_percent in
  {| _pin_num := _pin_num c; _channel_num := _channel_num c;
     _mode := _mode c; _gcode_num := _gcode_num c; _phase := _phase c;
     _isOn := _isOn c; _pwm_freq := _pwm_freq c;
     _pwm_resolution_bits := _pwm_resolution_bits c;
     _spike_length := _spike_length c; _hold_length := _hold_length c;
     _spike_percent := spike_percent; _hold_percent := hold_percent;
     _pwm_duty_low := _pwm_duty_low c; _pwm_duty_high := _pwm_duty_high c;
     _spike_end := _spike_end c; _hold_end := _hold_end c |}.

(** [UserIoControl::set_pwm_low_high]. *)
Definition set_pwm_low_high (pwm_duty_low pwm_duty_high : Z)
    (c : UserIoControl) : UserIoControl :=
  let pwm_duty_low := wrap 16 pwm_duty_low in
  let pwm_duty_high := wrap 16 pwm_duty_high in
  {| _pin_num := _pin_num c; _channel_num := _channel_num c;
     _mode := _mode c; _gcode_num := _gcode_num c; _phase := _phase c;
     _isOn := _isOn c; _pwm_freq := _pwm_freq c;
     _pwm_resolution_bits := _pwm_resolution_bits c;
     _spike_length := _spike_length c; _hold_length := _hold_length c;
     _spike_percent := _spike_percent c; _hold_percent := _hold_percent c;
     _pwm_duty_low := pwm_duty_low; _pwm_duty_high := pwm_duty_high;
     _spike_end := _spike_end c; _hold_end := _hold_end c |}.

(** [UserIoControl::set_spike_length]. *)
Definition set_spike_length (length : Z) (c : UserIoControl)
  : UserIoControl :=
  let length := wrap 16 length in
  {| _pin_num := _pin_num c; _channel_num := _channel_num c;
     _mode := _mode c; _gcode_num := _gcode_num c; _phase := _phase c;
     _isOn := _isOn c; _pwm_freq := _pwm_freq c;
     _pwm_resolution_bits := _pwm_resolution_bits c;
     _spike_length := length; _hold_length := _hold_length c;
     _spike_percent := _spike_percent c; _hold_percent := _hold_percent c;
     _pwm_duty_low := _pwm_duty_low c; _pwm_duty_high := _pwm_duty_high c;
     _spike_end := _spike_end c; _hold_end := _hold_end c |}.

(** [UserIoControl::set_hold_length]. *)
Definition set_hold_length (length : Z) (c : UserIoControl)
  : UserIoControl :=
  let length := wrap 32 length in
  {| _pin_num := _pin_num c; _channel_num := _channel_num c;
     _mode := _mode c; _gcode_num := _gcode_num c; _phase := _phase c;
     _isOn := _isOn c; _pwm_freq := _pwm_freq c;
     _pwm_resolution_bits := _pwm_resolution_bits c;
     _spike_length := _spike_length c; _hold_length := length;
     _spike_percent := _spike_percent c; _hold_percent := _hold_percent c;
     _pwm_duty_low := _pwm_duty_low c; _pwm_duty_high := _pwm_duty_high c;
     _spike_end := _spike_end c; _hold_end := _hold_end c |}.

(** ** Configuration of the outputs

    [init] configures the pin or the PWM channel with [pinMode],
    [ledcSetup] and [ledcAttachPin].  These calls of the Arduino core are
    taken to record the configuration and to leave the duty registers and
    the pin levels alone; the configuration is kept beside the board. *)

Record Soc := {
  esp : Esp32;
  output_pins : gset Z;            (* pins set to OUTPUT by pinMode *)
  ledc_timer : gmap Z (Z * Z);     (* LEDC channel -> (frequency, bits) *)
  ledc_pin : gmap Z Z              (* pin -> LEDC channel attached to it *)
}.

(** An operation of the board, run on the board inside the [Soc]. *)
Definition on_esp {A} (m : M A) (s : Soc) : A * Soc :=
  let (a, w) := m (esp s) in
  (a, {| esp := w; output_pins := output_pins s;
         ledc_timer := ledc_timer s; ledc_pin := ledc_pin s |}).

(** [pinMode(pin, OUTPUT)]. *)
Definition pinMode_OUTPUT (pin : Z) (s : Soc) : Soc :=
  {| esp := esp s; output_pins := {[ pin ]} ∪ output_pins s;
     ledc_timer := ledc_timer s; ledc_pin := ledc_pin s |}.

(** [ledcSetup(chan, freq, bit_num)]. *)
Definition ledcSetup (chan freq bit_num : Z) (s : Soc) : Soc :=
  {| esp := esp s; output_pins := output_pins s;
     ledc_timer := <[chan := (freq, bit_num)]> (ledc_timer s);
     ledc_pin := ledc_pin s |}.

(** [ledcAttachPin(pin, chan)]. *)
Definition ledcAttachPin (pin chan : Z) (s : Soc) : Soc :=
  {| esp := esp s; output_pins := output_pins s;
     ledc_timer := ledc_timer s;
     ledc_pin := <[pin := chan]> (ledc_pin s) |}.

Section Setup.

Context `{UserIoHeader}.

(** [UserIoControl::init]. *)
Definition init (c : UserIoControl) (s : Soc) : UserIoControl * Soc :=
  if _mode c =? USER_IO_MODE_ON_OFF then
    let s := pinMode_OUTPUT (_pin_num c) s in
    on_esp (off c) s
  else
    let s :=
      ledcSetup (_channel_num c) (_pwm_freq c) (_pwm_resolution_bits c) s in
    let s := ledcAttachPin (_pin_num c) (_channel_num c) s in
    if _mode c =? USER_IO_MODE_SPIKE_HOLD_OFF then
      on_esp (off c) s
    else if _mode c =? USER_MODE_PWM_LOW_HIGH then
      let (_, s) := on_esp (_write_pwm (_pwm_duty_low c) c) s in
      (c, s)
    else (c, s).

(** The objects with the configured outputs, and the number of tasks
    created with [xTaskCreatePinnedToCore(userIoSyncTask, ...)]. *)
Record Firmware := {
  objects : gmap Z UserIoControl;
  soc : Soc;
  sync_tasks : nat
}.

(** One [#ifdef USER_DIGITAL_PIN_n] block of [user_io_control_init];
    the local [needsTimer] is threaded through. *)
Definition Pin_init (n : Z) (st : Firmware * bool) : Firmware * bool :=
  let (f, needsTimer) := st in
  match objects f !! n with
  | Some c =>
      let (c', s') := init c (soc f) in
      ({| objects := <[n := c']> (objects f); soc := s';
          sync_tasks := sync_tasks f |},
       if needsTimerUpdates c' then true else needsTimer)
  | None => st
  end.

(** [user_io_control_init]. *)
Definition user_io_control_init (f : Firmware) : Firmware :=
  let st := (f, false) in
  let st := Pin_init 1 st in
  let st := Pin_init 2 st in
  let st := Pin_init 3 st in
  let st := Pin_init 4 st in
  let st := Pin_init 5 st in
  let st := Pin_init 6 st in
  let (f, needsTimer) := st in
  if needsTimer then
    {| objects := objects f; soc := soc f; sync_tasks := S (sync_tasks f) |}
  else f.

(** [Pin<n>_UserIoControl.update()]. *)
Definition Pin_update (n : Z) (g : Grbl) : Grbl :=
  match pins g !! n with
  | Some c =>
      let (c', w) := update c (board g) in
      {| pins := <[n := c']> (pins g); board := w |}
  | None => g
  end.

(** The body of the loop of [userIoSyncTask]; [vTaskDelay] lets time pass,
    which shows in the later readings of the timer only. *)
Definition userIoSyncTask_pass (g : Grbl) : Grbl :=
  let g := Pin_update 1 g in
  let g := Pin_update 2 g in
  let g := Pin_update 3 g in
  let g := Pin_update 4 g in
  let g := Pin_update 5 g in
  let g := Pin_update 6 g in
  g.

(** The first [n] rounds of the loop, which never ends. *)
Fixpoint userIoSyncTask_passes (n : nat) (g : Grbl) : Grbl :=
  match n with
  | O => g
  | S n => userIoSyncTask_passes n (userIoSyncTask_pass g)
  end.

End Setup.

(** What the polling may do to the objects: every object stays, in its
    mode; an object that is off stays as it is. *)
Definition polled (g g' : Grbl) : Prop :=
  (forall k c, pins g !! k = Some c ->
     exists c', pins g' !! k = Some c' /\ _mode c' = _mode c /\
                (_isOn c = false -> c' = c)) /\
  (forall k, pins g !! k = None -> pins g' !! k = None).

(** How far [user_io_control_init] has got after the block of pin [j],
    started on [f0]: the objects 1..j are the ones [init] returns, the
    others are untouched; [needsTimer] is set exactly when one of the
    objects 1..j needs timer updates; no task has been created yet. *)
Definition init_progress `{UserIoHeader} (f0 : Firmware) (j : Z)
    (st : Firmware * bool) : Prop :=
  (forall k, objects (fst st) !! k =
             if decide (1 <= k <= j)
             then (fun c => fst (init c (soc f0))) <$> objects f0 !! k
             else objects f0 !! k) /\
  (snd st = true <->
   exists k c, 1 <= k <= j /\ objects f0 !! k = Some c /\
               needsTimerUpdates c = true) /\
  sync_tasks (fst st) = sync_tasks f0.

(** ** A configuration for the examples

    The modes and the phases numbered 0, 1, 2 in the order the source
    describes them, and a resolution of 8 bits; a channel set up as in the
    scenario of the specification (SPIKE_HOLD_OFF, spike length 100 ms,
    spike 80 percent, hold 20 percent); a timer read every 50 ms. *)

Definition example_header : UserIoHeader :=
  {| USER_IO_MODE_ON_OFF := 0;
     USER_IO_MODE_SPIKE_HOLD_OFF := 1;
     USER_MODE_PWM_LOW_HIGH := 2;
     USER_IO_PHASE_NONE := 0;
     USER_IO_PHASE_SPIKE := 1;
     USER_IO_PHASE_HOLD := 2;
     USER_IO_PULSE_RES_BITS := 8 |}.

Definition example_channel : UserIoControl :=
  {| _pin_num := 25; _channel_num := 1; _mode := 1; _gcode_num := 2;
     _phase := 0; _isOn := false; _pwm_freq := 5000;
     _pwm_resolution_bits := 8; _spike_length := 100; _hold_length := 0;
     _spike_percent := 80; _hold_percent := 20;
     _pwm_duty_low := 0; _pwm_duty_high := 0;
     _spike_end := 0; _hold_end := 0 |}.

(** The channel after [on(true, 500)] at time 0, and after the spike. *)
Definition example_spiking : UserIoControl :=
  assign_isOn true
    (assign_hold_end 500000
       (assign_spike_end 100000 (assign_phase 1 example_channel))).

Definition example_holding : UserIoControl :=
  assign_phase 2 example_spiking.

(** A channel in PWM_LOW_HIGH mode and one in an unknown mode. *)
Definition example_low_high : UserIoControl :=
  {| _pin_num := 26; _channel_num := 2; _mode := 2; _gcode_num := 3;
     _phase := 0; _isOn := false; _pwm_freq := 50;
     _pwm_resolution_bits := 16; _spike_length := 0; _hold_length := 0;
     _spike_percent := 0; _hold_percent := 0;
     _pwm_duty_low := 3276; _pwm_duty_high := 6553;
     _spike_end := 0; _hold_end := 0 |}.

Definition example_unknown_mode : UserIoControl :=
  new_UserIoControl example_channel 4 27 3 3.

Definition example_timer (k : nat) : Z := 50000 * Z.of_nat k.

Definition example_board : Esp32 :=
  {| ledc := ∅; ledc_writes := 0; gpio := ∅; timer := example_timer;
     timer_reads := 0; planner_blocks := 0 |}.

(** Channels 2 and 3 configured. *)
Definition example_grbl : Grbl :=
  {| pins := <[2 := example_channel]> (<[3 := example_low_high]> ∅);
     board := example_board |}.

(** Further examples: a channel in ON_OFF mode, a channel with a spike of
    50 ms, and a firmware with the channels 2 and 3 before start-up. *)
Definition example_relay : UserIoControl :=
  new_UserIoControl example_channel 1 32 0 0.

Definition example_short_spike : UserIoControl :=
  set_spike_length 50 example_channel.

Definition example_soc : Soc :=
  {| esp := example_board; output_pins := ∅; ledc_timer := ∅;
     ledc_pin := ∅ |}.

Definition example_firmware : Firmware :=
  {| objects := <[2 := example_channel]> (<[3 := example_low_high]> ∅);
     soc := example_soc; sync_tasks := 0 |}.

(** * Properties *)

Section Properties.

Context `{UserIoHeader}.

(** ** Integer facts *)

Lemma wrap_range (w x : Z) : 0 <= w -> 0 <= wrap w x < 2 ^ w.
Proof.
  intros Hw. unfold wrap. apply Z.mod_pos_bound. apply Z.pow_pos_nonneg; lia.
Qed.

Lemma wrap_small (w x : Z) : 0 <= x < 2 ^ w -> wrap w x = x.
Proof. intros Hx. unfold wrap. apply Z.mod_small. exact Hx. Qed.

Lemma wrap_idem (w x : Z) : 0 <= w -> wrap w (wrap w x) = wrap w x.
Proof. intros Hw. apply wrap_small. apply wrap_range. exact Hw. Qed.

(** The condition [io_num_mask & 1<<n] tests bit [n] of the mask. *)
Lemma mask_bit_testbit (m n : Z) : 0 <= n -> mask_bit m n = Z.testbit m n.
Proof.
  intros Hn. unfold mask_bit. rewrite Z.shiftl_1_l.
  destruct (Z.testbit m n) eqn:Hb.
  - destruct (Z.eqb_spec (Z.land m (2 ^ n)) 0) as [E|E]; [|reflexivity].
    exfalso. assert (Hc : Z.testbit (Z.land m (2 ^ n)) n = true).
    { rewrite Z.land_spec, Hb, Z.pow2_bits_true by lia. reflexivity. }
    rewrite E, Z.bits_0 in Hc. discriminate.
  - destruct (Z.eqb_spec (Z.land m (2 ^ n)) 0) as [E|E]; [reflexivity|].
    exfalso. apply E. apply Z.bits_inj'. intros i Hi.
    rewrite Z.land_spec, Z.bits_0, Z.pow2_bits_eqb by lia.
    destruct (Z.eqb_spec n i) as [->|Hne].
    + rewrite Hb. reflexivity.
    + apply andb_false_r.
Qed.

(** ** The PWM write *)

Ltac run :=
  unfold mbind, M_bind, mret, M_ret, esp_timer_get_time, ledcRead, ledcWrite,
    digitalWrite in *; cbn [fst snd] in *.

(** Decide a comparison of two constants known to differ. *)
Ltac eqb_differ :=
  match goal with
  | Hn : ?a <> ?b |- context [?a =? ?b] =>
      rewrite (proj2 (Z.eqb_neq a b) Hn)
  | Hn : ?b <> ?a |- context [?a =? ?b] =>
      rewrite (proj2 (Z.eqb_neq a b) (not_eq_sym Hn))
  end.

(** Run the straight-line part of a method: [known] rewrites with what is
    known of the object, and the conditions that become closed are
    decided. *)
Ltac exec known :=
  repeat first
    [ progress known
    | rewrite Z.eqb_refl
    | eqb_differ
    | progress cbv beta iota
    | progress cbv [mbind M_bind mret M_ret esp_timer_get_time]
    | progress cbn [negb fst snd] ].

(** After [_write_pwm] the channel is at the requested duty; nothing but
    the duty register of that channel (and the count of writes) changes. *)
Lemma _write_pwm_duty (d : Z) (c : UserIoControl) (w : Esp32) :
  duty_of c (snd (_write_pwm d c w)) = wrap 32 d.
Proof.
  unfold duty_of, _write_pwm. run.
  destruct (Z.eqb_spec (default 0 (ledc w !! _channel_num c)) (wrap 32 d))
    as [E|E]; cbn.
  - exact E.
  - rewrite lookup_insert_eq. reflexivity.
Qed.

Lemma _write_pwm_frame (d : Z) (c : UserIoControl) (w : Esp32) :
  let w' := snd (_write_pwm d c w) in
  gpio w' = gpio w /\ timer w' = timer w /\
  timer_reads w' = timer_reads w /\ planner_blocks w' = planner_blocks w /\
  forall ch, ch <> _channel_num c -> ledc w' !! ch = ledc w !! ch.
Proof.
  unfold _write_pwm. run.
  destruct (Z.eqb_spec (default 0 (ledc w !! _channel_num c)) (wrap 32 d))
    as [E|E]; cbn; repeat split; try reflexivity.
  intros ch Hch. rewrite lookup_insert_ne by congruence. reflexivity.
Qed.

Lemma _write_percent_duty (p : Z) (c : UserIoControl) (w : Esp32) :
  duty_of c (snd (_write_percent p c w)) = wrap 32 (percent_duty (wrap 8 p)).
Proof. unfold _write_percent. apply _write_pwm_duty. Qed.

Lemma _write_percent_frame (p : Z) (c : UserIoControl) (w : Esp32) :
  let w' := snd (_write_percent p c w) in
  gpio w' = gpio w /\ timer w' = timer w /\
  timer_reads w' = timer_reads w /\ planner_blocks w' = planner_blocks w /\
  forall ch, ch <> _channel_num c -> ledc w' !! ch = ledc w !! ch.
Proof. unfold _write_percent. apply _write_pwm_frame. Qed.

(** Name the result of the PWM write the goal is stuck on, with what is
    known of it. *)
Ltac pwm_written Hd Hf :=
  match goal with
  | |- context [_write_percent ?p ?c' ?w'] =>
      pose proof (_write_percent_duty p c' w') as Hd;
      pose proof (_write_percent_frame p c' w') as Hf;
      destruct (_write_percent p c' w')
  | |- context [_write_pwm ?d ?c' ?w'] =>
      pose proof (_write_pwm_duty d c' w') as Hd;
      pose proof (_write_pwm_frame d c' w') as Hf;
      destruct (_write_pwm d c' w')
  end; cbv zeta in Hf; cbn [fst snd] in Hd, Hf.

(** ** on *)

(** What [on(true, d)] does in SPIKE_HOLD_OFF mode, for every [d]. *)
Lemma on_true_spike_hold_off (c : UserIoControl) (w : Esp32) (d : Z) :
  USER_IO_MODE_ON_OFF <> USER_IO_MODE_SPIKE_HOLD_OFF ->
  _mode c = USER_IO_MODE_SPIKE_HOLD_OFF ->
  let r := on true d c w in
  fst r =
    assign_isOn true
      (assign_hold_end
         (if wrap 32 d =? 0 then 0
          else timer w (S (timer_reads w)) + wrap 32 (wrap 32 d * 1000))
         (assign_spike_end (timer w (timer_reads w) + _spike_length c * 1000)
            (assign_phase USER_IO_PHASE_SPIKE c))) /\
  duty_of c (snd r) = wrap 32 (percent_duty (wrap 8 (_spike_percent c))) /\
  gpio (snd r) = gpio w.
Proof.
  intros Hne Hm. unfold on.
  destruct (wrap 32 d =? 0) eqn:Hz; exec ltac:(rewrite ?Hm, ?Hz);
    pwm_written Hd Hf; exec idtac;
    (split; [reflexivity | split; [exact Hd | apply Hf]]).
Qed.

(** C1.  In SPIKE_HOLD_OFF mode [on(true, 4294968)] enters the SPIKE phase,
    sets [spike_end] to the timer reading plus the spike length (in
    microseconds), drives the duty of the spike percentage and sets the
    on-state, but it sets [hold_end] to the timer reading plus 704
    microseconds, not plus 4294968 milliseconds: the product
    [duration * 1000] is reduced modulo 2^32. *)
Theorem on_true_spike_hold_off_duration_wraps
    (c : UserIoControl) (w : Esp32) :
  USER_IO_MODE_ON_OFF <> USER_IO_MODE_SPIKE_HOLD_OFF ->
  _mode c = USER_IO_MODE_SPIKE_HOLD_OFF ->
  let r := on true 4294968 c w in
  _phase (fst r) = USER_IO_PHASE_SPIKE /\
  _spike_end (fst r) = timer w (timer_reads w) + _spike_length c * 1000 /\
  _hold_end (fst r) = timer w (S (timer_reads w)) + 704 /\
  _hold_end (fst r) <> timer w (S (timer_reads w)) + 4294968 * 1000 /\
  duty_of c (snd r) = wrap 32 (percent_duty (wrap 8 (_spike_percent c))) /\
  _isOn (fst r) = true.
Proof.
  intros Hne Hm.
  destruct (on_true_spike_hold_off c w 4294968 Hne Hm) as (Hc & Hd & _).
  cbv zeta. rewrite Hc. cbn [assign_isOn assign_hold_end assign_spike_end
    assign_phase _phase _spike_end _hold_end _isOn].
  change (wrap 32 4294968) with 4294968.
  change (wrap 32 (4294968 * 1000)) with 704.
  change (4294968 =? 0) with false. cbv iota.
  repeat split; try reflexivity; [lia | exact Hd].
Qed.

(** ** update *)

(** C3.  For every channel and every board (hence every current time),
    [update] changes nothing, neither the channel object (phase, on-state,
    deadlines) nor the board (duty registers, pin levels, timer readings
    consumed), whenever the on-state is false or the mode is ON_OFF. *)
Theorem update_noop_when_off_or_on_off (c : UserIoControl) (w : Esp32) :
  _isOn c = false \/ _mode c = USER_IO_MODE_ON_OFF ->
  update c w = (c, w).
Proof.
  intros [E|E]; unfold update; rewrite E.
  - reflexivity.
  - rewrite Z.eqb_refl. destruct (_isOn c); reflexivity.
Qed.

(** One call of [update] on a channel that is on, in HOLD phase, in one of
    the two timed modes: nothing happens when [hold_end] is 0; otherwise the
    timer is read once, and the channel is switched off exactly when the
    reading is after [hold_end]. *)
Lemma update_hold_indefinite (c : UserIoControl) (w : Esp32) :
  case_labels_distinct -> phases_distinct ->
  _mode c = USER_IO_MODE_SPIKE_HOLD_OFF \/ _mode c = USER_MODE_PWM_LOW_HIGH ->
  _isOn c = true -> _phase c = USER_IO_PHASE_HOLD -> _hold_end c = 0 ->
  update c w = (c, w).
Proof.
  intros (H01 & H02 & H12) Hph Hm Hon Hp He. unfold phases_distinct in Hph.
  unfold update, update_spike_hold_off, update_pwm_low_high.
  destruct Hm as [Hm|Hm]; exec ltac:(rewrite ?Hon, ?Hp, ?He, ?Hm);
    reflexivity.
Qed.

Lemma update_hold_waits (c : UserIoControl) (w : Esp32) :
  case_labels_distinct -> phases_distinct ->
  _mode c = USER_IO_MODE_SPIKE_HOLD_OFF \/ _mode c = USER_MODE_PWM_LOW_HIGH ->
  _isOn c = true -> _phase c = USER_IO_PHASE_HOLD -> _hold_end c <> 0 ->
  timer w (timer_reads w) <= _hold_end c ->
  update c w = (c, consume 1 w).
Proof.
  intros (H01 & H02 & H12) Hph Hm Hon Hp He Ht. unfold phases_distinct in Hph.
  assert (Hgt : (timer w (timer_reads w) >? _hold_end c) = false)
    by (rewrite Z.gtb_ltb; apply Z.ltb_ge; exact Ht).
  unfold update, update_spike_hold_off, update_pwm_low_high.
  destruct Hm as [Hm|Hm]; exec ltac:(rewrite ?Hon, ?Hp, ?Hm, ?Hgt);
    reflexivity.
Qed.

Lemma update_hold_expires (c : UserIoControl) (w : Esp32) :
  case_labels_distinct -> phases_distinct ->
  _mode c = USER_IO_MODE_SPIKE_HOLD_OFF \/ _mode c = USER_MODE_PWM_LOW_HIGH ->
  _isOn c = true -> _phase c = USER_IO_PHASE_HOLD -> _hold_end c <> 0 ->
  timer w (timer_reads w) > _hold_end c ->
  let r := update c w in
  fst r = assign_isOn false c /\
  duty_of c (snd r) =
    (if _mode c =? USER_IO_MODE_SPIKE_HOLD_OFF then 0
     else wrap 32 (_pwm_duty_low c)).
Proof.
  intros (H01 & H02 & H12) Hph Hm Hon Hp He Ht. unfold phases_distinct in Hph.
  assert (Hgt : (timer w (timer_reads w) >? _hold_end c) = true)
    by (rewrite Z.gtb_ltb; apply Z.ltb_lt; lia).
  unfold update, update_spike_hold_off, update_pwm_low_high.
  destruct Hm as [Hm|Hm]; exec ltac:(rewrite ?Hon, ?Hp, ?Hm, ?Hgt);
    pwm_written Hd Hf; exec idtac; (split; [reflexivity | exact Hd]).
Qed.

(** The last of [S k] calls of [update] runs on the result of the first
    [k]. *)
Lemma updates_last (k : nat) (c : UserIoControl) (w : Esp32) :
  updates (S k) c w = update (fst (updates k c w)) (snd (updates k c w)).
Proof.
  revert c w. induction k as [|k IH]; intros c w.
  - cbn. cbv [mbind M_bind mret M_ret]. destruct (update c w); reflexivity.
  - change (updates (S (S k)) c w)
      with (let (c', w') := update c w in updates (S k) c' w').
    change (updates (S k) c w)
      with (let (c', w') := update c w in updates k c' w').
    destruct (update c w) as [c' w']. apply IH.
Qed.

Lemma consume_consume (i k : nat) (w : Esp32) :
  consume i (consume k w) = consume (i + k) w.
Proof. unfold consume. cbn. f_equal. lia. Qed.

(** C4.  In SPIKE_HOLD_OFF mode, on and in SPIKE phase, one call of
    [update] whose timer reading is strictly after [spike_end] moves the
    phase to HOLD and drives the duty of the hold percentage.  It changes
    nothing else in the object and reads the timer once: the hold timeout
    is not evaluated in that call, so the channel is still on afterwards
    whatever [hold_end] is, and an expired [hold_end] switches the channel
    off in the next call. *)
Theorem update_spike_to_hold_single_transition
    (c : UserIoControl) (w : Esp32) :
  USER_IO_MODE_ON_OFF <> USER_IO_MODE_SPIKE_HOLD_OFF ->
  _mode c = USER_IO_MODE_SPIKE_HOLD_OFF ->
  _isOn c = true ->
  _phase c = USER_IO_PHASE_SPIKE ->
  timer w (timer_reads w) > _spike_end c ->
  let r := update c w in
  fst r = assign_phase USER_IO_PHASE_HOLD c /\
  _isOn (fst r) = true /\
  _hold_end (fst r) = _hold_end c /\
  duty_of c (snd r) = wrap 32 (percent_duty (wrap 8 (_hold_percent c))) /\
  timer_reads (snd r) = S (timer_reads w) /\
  (case_labels_distinct -> phases_distinct ->
   _hold_end c <> 0 -> timer w (S (timer_reads w)) > _hold_end c ->
   _isOn (fst (updates 2 c w)) = false /\
   duty_of c (snd (updates 2 c w)) = 0).
Proof.
  intros Hne Hm Hon Hp Ht.
  assert (Hstep : exists w2,
    update c w = (assign_phase USER_IO_PHASE_HOLD c, w2) /\
    duty_of c w2 = wrap 32 (percent_duty (wrap 8 (_hold_percent c))) /\
    timer w2 = timer w /\ timer_reads w2 = S (timer_reads w)).
  { assert (Hgt : (timer w (timer_reads w) >? _spike_end c) = true)
      by (rewrite Z.gtb_ltb; apply Z.ltb_lt; lia).
    unfold update, update_spike_hold_off.
    exec ltac:(rewrite ?Hon, ?Hp, ?Hm, ?Hgt).
    pwm_written Hd Hf. exec idtac.
    eexists. split; [reflexivity|].
    repeat split; [exact Hd | apply Hf | apply Hf]. }
  destruct Hstep as (w2 & Hu & Hd & Htm & Hrd).
  cbv zeta. rewrite Hu. cbn [fst snd].
  repeat split; try assumption.
  - rewrite updates_last. cbn [updates]. cbv [mbind M_bind mret M_ret].
    rewrite Hu. cbn [fst snd].
    refine (eq_trans (f_equal _isOn (proj1 (update_hold_expires
      (assign_phase USER_IO_PHASE_HOLD c) w2 _ _ _ _ _ _ _))) _);
      try assumption; try reflexivity.
    + left. exact Hm.
    + rewrite Htm, Hrd. assumption.
  - rewrite updates_last. cbn [updates]. cbv [mbind M_bind mret M_ret].
    rewrite Hu. cbn [fst snd].
    pose proof (update_hold_expires (assign_phase USER_IO_PHASE_HOLD c) w2)
      as Hx. cbv zeta in Hx.
    destruct Hx as [_ Hx]; try assumption; try reflexivity.
    + left. exact Hm.
    + rewrite Htm, Hrd. assumption.
    + cbn [assign_phase _mode] in Hx. rewrite Hm, Z.eqb_refl in Hx.
      exact Hx.
Qed.

(** C5.  In SPIKE_HOLD_OFF or PWM_LOW_HIGH mode, on and in HOLD phase: when
    [hold_end] is 0, any number of [update] calls, at any times, leaves the
    object and the board as they are (on-state set, duty unchanged); when
    [hold_end] is not 0, the calls whose timer reading is not after
    [hold_end] change nothing but the count of readings, and the first call
    whose reading is strictly after [hold_end] clears the on-state and
    drives duty 0 (SPIKE_HOLD_OFF) or the low level (PWM_LOW_HIGH). *)
Theorem update_hold_phase_timeout (c : UserIoControl) (w : Esp32) :
  case_labels_distinct -> phases_distinct ->
  _mode c = USER_IO_MODE_SPIKE_HOLD_OFF \/ _mode c = USER_MODE_PWM_LOW_HIGH ->
  _isOn c = true ->
  _phase c = USER_IO_PHASE_HOLD ->
  (_hold_end c = 0 -> forall n, updates n c w = (c, w)) /\
  (_hold_end c <> 0 ->
   forall k : nat,
     (forall i, (i < k)%nat ->
                timer w (i + timer_reads w)%nat <= _hold_end c) ->
     timer w (k + timer_reads w)%nat > _hold_end c ->
     updates k c w = (c, consume k w) /\
     fst (updates (S k) c w) = assign_isOn false c /\
     duty_of c (snd (updates (S k) c w)) =
       (if _mode c =? USER_IO_MODE_SPIKE_HOLD_OFF then 0
        else wrap 32 (_pwm_duty_low c))).
Proof.
  intros Hcl Hph Hm Hon Hp. split.
  - intros He n. induction n as [|n IH]; [reflexivity|].
    rewrite updates_last, IH. cbn [fst snd].
    apply update_hold_indefinite; assumption.
  - intros He k Hbefore Hafter.
    assert (Hk : forall j, (j <= k)%nat -> updates j c w = (c, consume j w)).
    { induction j as [|j IH]; intros Hj.
      - destruct w; reflexivity.
      - rewrite updates_last, IH by lia. cbn [fst snd].
        rewrite (update_hold_waits c (consume j w)); try assumption.
        + rewrite consume_consume. reflexivity.
        + cbn. apply Hbefore. lia. }
    split; [apply Hk; lia|].
    rewrite updates_last, (Hk k) by lia. cbn [fst snd].
    apply (update_hold_expires c (consume k w)); try assumption.
Qed.

(** ** off and on(false, d) *)

(** C6.  For every channel in every mode and every duration [d], [off()]
    returns the same object and leaves the same board as [on(false, d)]:
    the pin is written low in ON_OFF mode, the duty is the low level in
    PWM_LOW_HIGH mode and zero in every other mode, and the on-state is
    cleared. *)
Theorem off_equals_on_false (c : UserIoControl) (w : Esp32) (d : Z) :
  USER_IO_MODE_SPIKE_HOLD_OFF <> USER_MODE_PWM_LOW_HIGH ->
  off c w = on false d c w /\
  fst (off c w) = assign_isOn false c /\
  (_mode c = USER_IO_MODE_ON_OFF ->
   gpio (snd (off c w)) !! _pin_num c = Some false /\
   ledc (snd (off c w)) = ledc w) /\
  (_mode c <> USER_IO_MODE_ON_OFF -> _mode c = USER_MODE_PWM_LOW_HIGH ->
   duty_of c (snd (off c w)) = wrap 32 (_pwm_duty_low c)) /\
  (_mode c <> USER_IO_MODE_ON_OFF -> _mode c <> USER_MODE_PWM_LOW_HIGH ->
   duty_of c (snd (off c w)) = 0).
Proof.
  intros Hsp. unfold off, on. cbv [mbind M_bind mret M_ret].
  destruct (Z.eqb_spec (_mode c) USER_IO_MODE_ON_OFF) as [E0|E0].
  - repeat split; try reflexivity; try contradiction.
    cbn. apply lookup_insert_eq.
  - destruct (Z.eqb_spec (_mode c) USER_MODE_PWM_LOW_HIGH) as [E2|E2].
    + destruct (Z.eqb_spec (_mode c) USER_IO_MODE_SPIKE_HOLD_OFF) as [E1|E1];
        [congruence|].
      repeat split; try contradiction.
      * destruct (_write_pwm (_pwm_duty_low c) c w); reflexivity.
      * destruct (_write_pwm (_pwm_duty_low c) c w); reflexivity.
      * intros _ _. pose proof (_write_pwm_duty (_pwm_duty_low c) c w) as Hd.
        destruct (_write_pwm (_pwm_duty_low c) c w); exact Hd.
    + repeat split; try contradiction.
      * destruct (Z.eqb_spec (_mode c) USER_IO_MODE_SPIKE_HOLD_OFF);
          destruct (_write_pwm 0 c w); reflexivity.
      * destruct (_write_pwm 0 c w); reflexivity.
      * intros _ _. pose proof (_write_pwm_duty 0 c w) as Hd.
        destruct (_write_pwm 0 c w); exact Hd.
Qed.

(** ** The dispatcher *)

(** The condition of the [n]-th block of the dispatcher. *)
Lemma dispatch_condition (g : Grbl) (m n : Z) :
  0 <= n ->
  defined n (synced g) && mask_bit m n = true <->
  (exists c, pins g !! n = Some c) /\ Z.testbit m n = true.
Proof.
  intros Hn. rewrite andb_true_iff, mask_bit_testbit by exact Hn.
  unfold defined, synced. cbn [pins]. rewrite bool_decide_eq_true.
  reflexivity.
Qed.

Lemma dispatch_condition_false (g : Grbl) (m n : Z) :
  0 <= n ->
  defined n (synced g) && mask_bit m n = false <->
  pins g !! n = None \/ Z.testbit m n = false.
Proof.
  intros Hn. rewrite andb_false_iff, mask_bit_testbit by exact Hn.
  unfold defined, synced. cbn [pins]. rewrite bool_decide_eq_false.
  rewrite <- eq_None_not_Some. reflexivity.
Qed.

(** The dispatcher either finds no block to run, or runs [on] for the least
    [n] in 1..6 whose block is compiled in and whose mask bit is set. *)
Lemma sys_io_control_cases (g : Grbl) (io_num_mask : Z) (turnOn : bool)
    (duration : Z) :
  let cond n :=
    defined n (synced g) && mask_bit (wrap 8 io_num_mask) n in
  ((forall n, 1 <= n <= 6 -> cond n = false) /\
   sys_io_control io_num_mask turnOn duration g = synced g) \/
  (exists n, 1 <= n <= 6 /\ cond n = true /\
     (forall k, 1 <= k < n -> cond k = false) /\
     sys_io_control io_num_mask turnOn duration g =
       Pin_on n turnOn (wrap 16 duration) (synced g)).
Proof.
  intros cond. unfold sys_io_control. cbv zeta.
  fold (cond 1) (cond 2) (cond 3) (cond 4) (cond 5) (cond 6).
  destruct (cond 1) eqn:E1;
    [right; exists 1; repeat split; try lia; try assumption;
     intros k Hk; exfalso; lia |].
  destruct (cond 2) eqn:E2;
    [right; exists 2; repeat split; try lia; try assumption;
     intros k Hk; assert (k = 1) as -> by lia; assumption |].
  destruct (cond 3) eqn:E3;
    [right; exists 3; repeat split; try lia; try assumption;
     intros k Hk; assert (k = 1 \/ k = 2) as [-> | ->] by lia; assumption |].
  destruct (cond 4) eqn:E4;
    [right; exists 4; repeat split; try lia; try assumption;
     intros k Hk;
     assert (k = 1 \/ k = 2 \/ k = 3) as [-> | [-> | ->]] by lia;
     assumption |].
  destruct (cond 5) eqn:E5;
    [right; exists 5; repeat split; try lia; try assumption;
     intros k Hk;
     assert (k = 1 \/ k = 2 \/ k = 3 \/ k = 4)
       as [-> | [-> | [-> | ->]]] by lia;
     assumption |].
  destruct (cond 6) eqn:E6;
    [right; exists 6; repeat split; try lia; try assumption;
     intros k Hk;
     assert (k = 1 \/ k = 2 \/ k = 3 \/ k = 4 \/ k = 5)
       as [-> | [-> | [-> | [-> | ->]]]] by lia;
     assumption |].
  left. split; [|reflexivity].
  intros n Hn.
  assert (n = 1 \/ n = 2 \/ n = 3 \/ n = 4 \/ n = 5 \/ n = 6)
    as [-> | [-> | [-> | [-> | [-> | ->]]]]] by lia; assumption.
Qed.

(** [Pin_on] on an object that exists. *)
Lemma Pin_on_defined (g : Grbl) (n : Z) (c : UserIoControl) (turnOn : bool)
    (d : Z) :
  pins g !! n = Some c ->
  Pin_on n turnOn d g =
    {| pins := <[n := fst (on turnOn d c (board g))]> (pins g);
       board := snd (on turnOn d c (board g)) |}.
Proof.
  intros E. unfold Pin_on. rewrite E.
  destruct (on turnOn d c (board g)); reflexivity.
Qed.

(** C2.  For every mask, on/off flag and duration: the dispatcher forwards
    [on(turnOn, duration)] to the object of the least channel number in 1..6
    that is configured and whose bit is set in the mask, and to no other; the
    objects of all other channels are as before, also when several bits are
    set; when no configured channel has its bit set, nothing changes (the
    planner has been waited for) and nothing is reported. *)
Theorem sys_io_control_first_match (g : Grbl) (io_num_mask : Z)
    (turnOn : bool) (duration : Z) :
  let m := wrap 8 io_num_mask in
  let g' := sys_io_control io_num_mask turnOn duration g in
  (forall n c,
     1 <= n <= 6 -> pins g !! n = Some c -> Z.testbit m n = true ->
     (forall k, 1 <= k < n -> pins g !! k = None \/ Z.testbit m k = false) ->
     let r := on turnOn (wrap 16 duration) c (board (synced g)) in
     g' = {| pins := <[n := fst r]> (pins g); board := snd r |}) /\
  ((forall n, 1 <= n <= 6 -> pins g !! n = None \/ Z.testbit m n = false) ->
   g' = synced g) /\
  (exists n, forall k, k <> n -> pins g' !! k = pins g !! k).
Proof.
  intros m g'.
  destruct (sys_io_control_cases g io_num_mask turnOn duration)
    as [[Hnone Hg] | (n0 & Hn0 & Hc0 & Hmin & Hg)];
    fold m in Hnone || fold m in Hc0, Hmin; fold g' in Hg.
  - split; [|split].
    + intros n c Hn Hc Hb _. exfalso.
      specialize (Hnone n Hn).
      apply dispatch_condition_false in Hnone; [|lia].
      destruct Hnone; congruence.
    + intros _. exact Hg.
    + exists 0. intros k _. rewrite Hg. reflexivity.
  - apply dispatch_condition in Hc0; [|lia].
    destruct Hc0 as [[c0 Hc0] Hb0].
    rewrite (Pin_on_defined (synced g) n0 c0) in Hg by exact Hc0.
    split; [|split].
    + intros n c Hn Hc Hb Hfirst.
      assert (n = n0) as ->.
      { destruct (Z.lt_trichotomy n n0) as [Hlt | [Heq | Hgt]];
          [exfalso | exact Heq | exfalso].
        - specialize (Hmin n ltac:(lia)).
          apply dispatch_condition_false in Hmin; [|lia].
          destruct Hmin; congruence.
        - destruct (Hfirst n0 ltac:(lia)); congruence. }
      assert (c = c0) as -> by congruence. exact Hg.
    + intros Hnone. exfalso. destruct (Hnone n0 Hn0); congruence.
    + exists n0. intros k Hk. rewrite Hg. cbn [pins synced].
      apply lookup_insert_ne. congruence.
Qed.

(** C10.  The duration parameter of the dispatcher is a [uint16_t], that of
    [on] a [uint32_t]: a call of the dispatcher with duration [d] is the
    call with [d mod 2^16]; the object the call changes has received
    [on(turnOn, d mod 2^16)], a duration below 65536 ms, for which
    [hold_end] is at most 65535 ms after the timer reading; a direct
    [on(true, 65536)] sets [hold_end] 65536 ms after the reading. *)
Theorem sys_io_control_duration_16_bits (g : Grbl) (io_num_mask : Z)
    (turnOn : bool) (duration : Z) :
  let g' := sys_io_control io_num_mask turnOn duration g in
  let received := duration mod 2 ^ 16 in
  g' = sys_io_control io_num_mask turnOn received g /\
  0 <= received < 65536 /\
  (forall n c c',
     pins g !! n = Some c -> pins g' !! n = Some c' -> c' <> c ->
     c' = fst (on turnOn received c (board (synced g)))) /\
  (forall c w d,
     USER_IO_MODE_ON_OFF <> USER_IO_MODE_SPIKE_HOLD_OFF ->
     _mode c = USER_IO_MODE_SPIKE_HOLD_OFF ->
     0 < d < 65536 ->
     _hold_end (fst (on true d c w)) = timer w (S (timer_reads w)) + d * 1000) /\
  (forall c w,
     USER_IO_MODE_ON_OFF <> USER_IO_MODE_SPIKE_HOLD_OFF ->
     _mode c = USER_IO_MODE_SPIKE_HOLD_OFF ->
     _hold_end (fst (on true 65536 c w)) =
       timer w (S (timer_reads w)) + 65536 * 1000).
Proof.
  intros g' received.
  assert (Hr : 0 <= received < 65536).
  { pose proof (wrap_range 16 duration ltac:(lia)) as Hr.
    change (2 ^ 16) with 65536 in Hr. exact Hr. }
  assert (Hw : wrap 16 received = wrap 16 duration).
  { apply (wrap_idem 16 duration). lia. }
  split; [|split; [exact Hr|split; [|split]]].
  - unfold g', sys_io_control. rewrite Hw. reflexivity.
  - intros n c c' Hc Hc' Hne.
    destruct (sys_io_control_cases g io_num_mask turnOn duration)
      as [[_ Hg] | (n0 & Hn0 & Hc0 & _ & Hg)]; fold g' in Hg.
    + rewrite Hg in Hc'. cbn [pins synced] in Hc'. congruence.
    + apply dispatch_condition in Hc0; [|lia].
      destruct Hc0 as [[c0 Hc0] _].
      rewrite (Pin_on_defined (synced g) n0 c0) in Hg by exact Hc0.
      rewrite Hg in Hc'. cbn [pins] in Hc'.
      destruct (decide (n0 = n)) as [->|Hn].
      * rewrite lookup_insert_eq in Hc'.
        assert (c0 = c) as -> by (cbn [pins synced] in Hc0; congruence).
        injection Hc' as <-. reflexivity.
      * rewrite lookup_insert_ne in Hc' by exact Hn.
        cbn [pins synced] in Hc'. congruence.
  - intros c w d Hne Hm Hd.
    destruct (on_true_spike_hold_off c w d Hne Hm) as (Hc & _).
    cbv zeta in Hc. rewrite Hc. cbn [assign_isOn assign_hold_end _hold_end].
    rewrite (wrap_small 32 d) by (change (2 ^ 32) with 4294967296; lia).
    rewrite (wrap_small 32 (d * 1000))
      by (change (2 ^ 32) with 4294967296; lia).
    rewrite (proj2 (Z.eqb_neq d 0)) by lia. reflexivity.
  - intros c w Hne Hm.
    destruct (on_true_spike_hold_off c w 65536 Hne Hm) as (Hc & _).
    cbv zeta in Hc. rewrite Hc. reflexivity.
Qed.

(** ** The percent-to-duty mapping *)

Lemma percent_duty_0 : percent_duty 0 = 0.
Proof. unfold percent_duty, mapConstrain. cbn. reflexivity. Qed.

Lemma percent_duty_100 : percent_duty 100 = 2 ^ USER_IO_PULSE_RES_BITS - 1.
Proof.
  unfold percent_duty, mapConstrain. cbn [Z.ltb Z.gtb Z.compare Pos.compare
    Pos.compare_cont]. rewrite Z.shiftl_1_l, !Z.sub_0_r, Z.add_0_r.
  rewrite Z.mul_comm. apply Z.div_mul. lia.
Qed.

Lemma percent_duty_monotone (p q : Z) :
  0 <= USER_IO_PULSE_RES_BITS -> p <= q -> percent_duty p <= percent_duty q.
Proof.
  intros HB Hpq. unfold percent_duty, mapConstrain.
  rewrite Z.shiftl_1_l, !Z.sub_0_r, !Z.add_0_r.
  assert (Hpos : 0 < 2 ^ USER_IO_PULSE_RES_BITS)
    by (apply Z.pow_pos_nonneg; lia).
  apply Z.div_le_mono; [lia|].
  apply Z.mul_le_mono_nonneg_r; [lia|].
  destruct (Z.ltb_spec p 0), (Z.ltb_spec q 0);
    repeat match goal with
           | |- context [?a >? ?b] =>
               rewrite (Z.gtb_ltb a b); destruct (Z.ltb_spec b a)
           end; lia.
Qed.

(** In range, the mapping is the truncated linear map onto
    [0 .. 2^USER_IO_PULSE_RES_BITS - 1]. *)
Lemma percent_duty_linear (p : Z) :
  0 <= p <= 100 ->
  percent_duty p = p * (2 ^ USER_IO_PULSE_RES_BITS - 1) / 100.
Proof.
  intros Hp. unfold percent_duty, mapConstrain.
  rewrite Z.shiftl_1_l, !Z.sub_0_r, !Z.add_0_r.
  rewrite (proj2 (Z.ltb_ge p 0)) by lia.
  rewrite Z.gtb_ltb, (proj2 (Z.ltb_ge 100 p)) by lia. reflexivity.
Qed.

(** C7.  The duty written for a percentage is computed from the macro
    [USER_IO_PULSE_RES_BITS], not from the resolution the channel is
    configured with: [set_pwm_freq_bits(f, b)] with a valid [b] stores [b]
    as the resolution of the channel and changes the duty written for no
    percentage; when [b] is not the macro, 100 percent is written as
    [2^USER_IO_PULSE_RES_BITS - 1], which is not [2^b - 1]. *)
Theorem write_percent_ignores_configured_resolution
    (c : UserIoControl) (w : Esp32) (f b : Z) :
  0 <= USER_IO_PULSE_RES_BITS <= 32 ->
  8 <= b <= 16 ->
  b <> USER_IO_PULSE_RES_BITS ->
  let c' := set_pwm_freq_bits f b c in
  _pwm_resolution_bits c' = b /\
  (forall p, duty_of c' (snd (_write_percent p c' w)) =
             duty_of c (snd (_write_percent p c w))) /\
  duty_of c' (snd (_write_percent 100 c' w)) =
    2 ^ USER_IO_PULSE_RES_BITS - 1 /\
  duty_of c' (snd (_write_percent 100 c' w)) <> 2 ^ b - 1.
Proof.
  intros HB Hb Hne c'.
  assert (Hbits : _pwm_resolution_bits c' = b).
  { unfold c', set_pwm_freq_bits. cbv zeta.
    rewrite (wrap_small 8 b) by (change (2 ^ 8) with 256; lia).
    rewrite (proj2 (Z.geb_le b 8)), (proj2 (Z.leb_le b 16)) by lia.
    reflexivity. }
  assert (Hduty : duty_of c' (snd (_write_percent 100 c' w)) =
                  2 ^ USER_IO_PULSE_RES_BITS - 1).
  { rewrite _write_percent_duty. change (wrap 8 100) with 100.
    rewrite percent_duty_100. apply wrap_small.
    assert (0 < 2 ^ USER_IO_PULSE_RES_BITS) by (apply Z.pow_pos_nonneg; lia).
    assert (2 ^ USER_IO_PULSE_RES_BITS <= 2 ^ 32)
      by (apply Z.pow_le_mono_r; lia).
    lia. }
  split; [exact Hbits | split; [|split; [exact Hduty|]]].
  - intros p. rewrite !_write_percent_duty. reflexivity.
  - rewrite Hduty. intros E.
    apply Hne. symmetry. apply (Z.pow_inj_r 2); lia.
Qed.

(** ** The setters *)

(** A value other than 1 and 2 cannot be made the mode with [set_mode]. *)
Lemma set_mode_cannot_select (x : Z) (c : UserIoControl) :
  x <> 1 -> x <> 2 -> _mode c <> x -> _mode (set_mode x c) <> x.
Proof.
  intros H1 H2 Hc. unfold set_mode. cbv zeta.
  destruct ((wrap 8 x >? 0) && (wrap 8 x <? 3)) eqn:E; [|exact Hc].
  cbn [assign_mode _mode]. apply andb_true_iff in E as [Ea Eb].
  rewrite Z.gtb_ltb in Ea. apply Z.ltb_lt in Ea, Eb. lia.
Qed.

(** Of three distinct mode numbers one is neither 1 nor 2. *)
Lemma some_mode_not_selectable :
  case_labels_distinct ->
  exists m, (m = USER_IO_MODE_ON_OFF \/ m = USER_IO_MODE_SPIKE_HOLD_OFF \/
             m = USER_MODE_PWM_LOW_HIGH) /\
            forall c, _mode c <> m -> _mode (set_mode m c) <> m.
Proof.
  intros (H01 & H02 & H12).
  destruct (decide (USER_IO_MODE_ON_OFF = 1 \/ USER_IO_MODE_ON_OFF = 2))
    as [Ha|Ha].
  - destruct (decide (USER_IO_MODE_SPIKE_HOLD_OFF = 1 \/
                      USER_IO_MODE_SPIKE_HOLD_OFF = 2)) as [Hs|Hs].
    + exists USER_MODE_PWM_LOW_HIGH. split; [tauto|].
      intros c. apply set_mode_cannot_select; lia.
    + exists USER_IO_MODE_SPIKE_HOLD_OFF. split; [tauto|].
      intros c. apply set_mode_cannot_select; lia.
  - exists USER_IO_MODE_ON_OFF. split; [tauto|].
    intros c. apply set_mode_cannot_select; lia.
Qed.

(** C8.  [set_mode(m)] stores [m] exactly when [m] is 1 or 2 and leaves the
    object unchanged for every other value, so that one of the three mode
    numbers at least cannot be selected with it; [set_pwm_freq_bits(f, b)]
    stores [f] exactly when [50 <= f <= 10000] and [b] exactly when
    [8 <= b <= 16], and each argument out of its range leaves its member
    unchanged. *)
Theorem setters_accept_exactly (c : UserIoControl) (m f b : Z) :
  0 <= m < 2 ^ 8 -> 0 <= f < 2 ^ 32 -> 0 <= b < 2 ^ 8 ->
  (m = 1 \/ m = 2 -> set_mode m c = assign_mode m c) /\
  (m <> 1 -> m <> 2 -> set_mode m c = c) /\
  (case_labels_distinct ->
   exists m', (m' = USER_IO_MODE_ON_OFF \/ m' = USER_IO_MODE_SPIKE_HOLD_OFF \/
               m' = USER_MODE_PWM_LOW_HIGH) /\
              forall c', _mode c' <> m' -> _mode (set_mode m' c') <> m') /\
  _pwm_freq (set_pwm_freq_bits f b c) =
    (if (50 <=? f) && (f <=? 10000) then f else _pwm_freq c) /\
  _pwm_resolution_bits (set_pwm_freq_bits f b c) =
    (if (8 <=? b) && (b <=? 16) then b else _pwm_resolution_bits c) /\
  _mode (set_pwm_freq_bits f b c) = _mode c.
Proof.
  intros Hm Hf Hb.
  split; [|split; [|split; [|split; [|split]]]].
  - intros Hm12. unfold set_mode. cbv zeta. rewrite (wrap_small 8 m Hm).
    destruct Hm12 as [-> | ->]; reflexivity.
  - intros H1 H2. unfold set_mode. cbv zeta. rewrite (wrap_small 8 m Hm).
    destruct (Z.gtb_spec m 0), (Z.ltb_spec m 3); cbn [andb];
      try reflexivity. lia.
  - exact some_mode_not_selectable.
  - unfold set_pwm_freq_bits. cbv zeta.
    rewrite (wrap_small 32 f Hf), (wrap_small 8 b Hb), !Z.geb_leb.
    destruct ((50 <=? f) && (f <=? 10000)), ((8 <=? b) && (b <=? 16));
      reflexivity.
  - unfold set_pwm_freq_bits. cbv zeta.
    rewrite (wrap_small 32 f Hf), (wrap_small 8 b Hb), !Z.geb_leb.
    destruct ((50 <=? f) && (f <=? 10000)), ((8 <=? b) && (b <=? 16));
      reflexivity.
  - unfold set_pwm_freq_bits. cbv zeta.
    destruct ((wrap 32 f >=? 50) && (wrap 32 f <=? 10000)),
      ((wrap 8 b >=? 8) && (wrap 8 b <=? 16)); reflexivity.
Qed.

(** ** The default branch of on *)

(** The constructor accepts every mode number. *)
Lemma new_UserIoControl_mode (init : UserIoControl) (g p ch m : Z) :
  _mode (new_UserIoControl init g p ch m) = wrap 8 m.
Proof. reflexivity. Qed.

(** C9.  In a mode that is none of the three mode numbers, [on(true, d)]
    writes the duty [2^USER_IO_PULSE_RES_BITS], computed from the macro:
    one more than the top [2^USER_IO_PULSE_RES_BITS - 1] of the range the
    percentages are mapped to, and not [2^bits - 1] for the resolution the
    channel is configured with either; [on(false, d)] writes duty 0, for
    every [d]. *)
Theorem on_default_mode_duty (c : UserIoControl) (w : Esp32) (d : Z) :
  0 < USER_IO_PULSE_RES_BITS < 32 ->
  _mode c <> USER_IO_MODE_ON_OFF ->
  _mode c <> USER_IO_MODE_SPIKE_HOLD_OFF ->
  _mode c <> USER_MODE_PWM_LOW_HIGH ->
  duty_of c (snd (on true d c w)) = 2 ^ USER_IO_PULSE_RES_BITS /\
  duty_of c (snd (on true d c w)) <> 2 ^ USER_IO_PULSE_RES_BITS - 1 /\
  duty_of c (snd (on true d c w)) <> percent_duty 100 /\
  (0 <= _pwm_resolution_bits c ->
   duty_of c (snd (on true d c w)) <> 2 ^ _pwm_resolution_bits c - 1) /\
  duty_of c (snd (on false d c w)) = 0.
Proof.
  intros HB H0 H1 H2.
  assert (Hon : duty_of c (snd (on true d c w)) = 2 ^ USER_IO_PULSE_RES_BITS).
  { unfold on. exec idtac. pwm_written Hd Hf. exec idtac.
    rewrite Hd, Z.shiftl_1_l. apply wrap_small.
    split; [apply Z.pow_nonneg; lia | apply Z.pow_lt_mono_r; lia]. }
  split; [exact Hon | split; [|split; [|split]]].
  - rewrite Hon. lia.
  - rewrite Hon, percent_duty_100. lia.
  - intros Hb. rewrite Hon. intros E.
    replace USER_IO_PULSE_RES_BITS
      with (Z.succ (USER_IO_PULSE_RES_BITS - 1)) in E by lia.
    rewrite Z.pow_succ_r in E by lia.
    destruct (Z.eq_dec (_pwm_resolution_bits c) 0) as [Ez|Ez].
    + rewrite Ez in E. change (2 ^ 0 - 1) with 0 in E.
      assert (0 < 2 ^ (USER_IO_PULSE_RES_BITS - 1))
        by (apply Z.pow_pos_nonneg; lia).
      lia.
    + replace (_pwm_resolution_bits c)
        with (Z.succ (_pwm_resolution_bits c - 1)) in E by lia.
      rewrite Z.pow_succ_r in E by lia. lia.
  - unfold on. exec idtac. pwm_written Hd Hf. exec idtac. exact Hd.
Qed.

End Properties.

(** * Further properties of the code *)

Section Further.

Context `{UserIoHeader}.

Ltac differ :=
  match goal with
  | Hn : ?a <> ?b |- context [?a =? ?b] =>
      rewrite (proj2 (Z.eqb_neq a b) Hn)
  | Hn : ?b <> ?a |- context [?a =? ?b] =>
      rewrite (proj2 (Z.eqb_neq a b) (not_eq_sym Hn))
  end.

Ltac steps known :=
  repeat first
    [ progress known
    | rewrite Z.eqb_refl
    | differ
    | progress cbv beta iota
    | progress cbv [mbind M_bind mret M_ret esp_timer_get_time]
    | progress cbn [negb fst snd] ].

(** Name the result of the PWM write in the goal, with its duty and what it
    leaves alone. *)
Ltac written Hd Hf :=
  match goal with
  | |- context [_write_percent ?p ?c' ?w'] =>
      pose proof (_write_percent_duty p c' w') as Hd;
      pose proof (_write_percent_frame p c' w') as Hf;
      destruct (_write_percent p c' w')
  | |- context [_write_pwm ?d ?c' ?w'] =>
      pose proof (_write_pwm_duty d c' w') as Hd;
      pose proof (_write_pwm_frame d c' w') as Hf;
      destruct (_write_pwm d c' w')
  end; cbv zeta in Hf; cbn [fst snd] in Hd, Hf.

(** Split on every condition of the code that is left in the goal. *)
Ltac branches :=
  repeat first
    [ progress cbv beta iota
    | progress cbv [mbind M_bind mret M_ret esp_timer_get_time]
    | progress cbn [negb fst snd]
    | match goal with
      | |- context [if ?b then _ else _] => destruct b eqn:?
      end ].

(** [steps], splitting on the conditions that stay undecided. *)
Ltac explore known :=
  repeat first
    [ progress known
    | rewrite Z.eqb_refl
    | differ
    | progress cbv beta iota
    | progress cbv [mbind M_bind mret M_ret esp_timer_get_time]
    | progress cbn [negb fst snd]
    | match goal with
      | |- context [if ?b then _ else _] => destruct b eqn:?
      end ].

(** ** The PWM write *)

(** A write of the duty the channel is at changes nothing; another duty is
    written with exactly one [ledcWrite]. *)
Lemma _write_pwm_same (d : Z) (c : UserIoControl) (w : Esp32) :
  duty_of c w = wrap 32 d -> _write_pwm d c w = (tt, w).
Proof.
  intros E. unfold duty_of, ledcRead in E. cbn [fst] in E.
  unfold _write_pwm. cbv [mbind M_bind mret M_ret ledcRead].
  rewrite E, Z.eqb_refl. reflexivity.
Qed.

Lemma _write_pwm_other (d : Z) (c : UserIoControl) (w : Esp32) :
  duty_of c w <> wrap 32 d ->
  _write_pwm d c w = ledcWrite (_channel_num c) (wrap 32 d) w.
Proof.
  intros E. unfold duty_of, ledcRead in E. cbn [fst] in E.
  unfold _write_pwm. cbv [mbind M_bind mret M_ret ledcRead].
  rewrite (proj2 (Z.eqb_neq _ _) E). reflexivity.
Qed.

(** X1.  [_write_pwm(duty)] leaves the board exactly as it is when the
    channel already is at that duty, so the number of [ledcWrite] calls
    does not grow; otherwise it makes one [ledcWrite], which stores the
    duty in the register of the channel.  A second write of the same duty
    is therefore never a hardware write. *)
Theorem _write_pwm_writes_only_changes
    (d : Z) (c : UserIoControl) (w : Esp32) :
  (duty_of c w = wrap 32 d -> snd (_write_pwm d c w) = w) /\
  (duty_of c w <> wrap 32 d ->
   ledc_writes (snd (_write_pwm d c w)) = S (ledc_writes w) /\
   ledc (snd (_write_pwm d c w)) =
     <[_channel_num c := wrap 32 d]> (ledc w)) /\
  snd (_write_pwm d c (snd (_write_pwm d c w))) = snd (_write_pwm d c w).
Proof.
  split; [|split].
  - intros E. rewrite (_write_pwm_same d c w E). reflexivity.
  - intros E. rewrite (_write_pwm_other d c w E). split; reflexivity.
  - rewrite (_write_pwm_same d c (snd (_write_pwm d c w)));
      [reflexivity | apply _write_pwm_duty].
Qed.

(** ** What on leaves alone *)

(** X2.  [on(isOn, duration)], in any mode and with any arguments, leaves
    the duty of every other LEDC channel and the level of every other pin
    as they are, does not touch the planner, and reads the timer at most
    twice. *)
Theorem on_changes_own_output_only
    (b : bool) (d : Z) (c : UserIoControl) (w : Esp32) :
  let w' := snd (on b d c w) in
  (forall ch, ch <> _channel_num c -> ledc w' !! ch = ledc w !! ch) /\
  (forall pin, pin <> _pin_num c -> gpio w' !! pin = gpio w !! pin) /\
  planner_blocks w' = planner_blocks w /\
  timer w' = timer w /\
  (timer_reads w <= timer_reads w' <= 2 + timer_reads w)%nat.
Proof.
  unfold on. cbv zeta.
  destruct (_mode c =? USER_IO_MODE_ON_OFF).
  { steps idtac. cbv [digitalWrite]. cbn.
    repeat split; try lia.
    intros pin Hp. apply lookup_insert_ne. congruence. }
  destruct (_mode c =? USER_IO_MODE_SPIKE_HOLD_OFF);
    [|destruct (_mode c =? USER_MODE_PWM_LOW_HIGH)];
    destruct b; try destruct (wrap 32 d =? 0);
    steps idtac; written Hd Hf; steps idtac;
    destruct Hf as (Hg & Ht & Hr & Hp & Hl); cbn in Hg, Ht, Hr, Hp, Hl;
    (split; [exact Hl|]); (split; [intros pin _; rewrite Hg; reflexivity|]);
    (split; [exact Hp|]); (split; [exact Ht|]); rewrite Hr; lia.
Qed.

(** ** What update can do *)

(** [update] on a channel that is off. *)
Lemma update_off (c : UserIoControl) (w : Esp32) :
  _isOn c = false -> update c w = (c, w).
Proof. intros E. unfold update. rewrite E. reflexivity. Qed.

(** X3.  One call of [update], on any channel and any board, does one of
    three things to the object: nothing, the step from SPIKE phase to HOLD
    phase, or the clearing of the on-state in HOLD phase.  So it never sets
    the on-state, never goes back to SPIKE phase, and never changes the
    mode, the deadlines or the settings.  On the board it writes no pin and
    no LEDC channel but its own. *)
Theorem update_effects (c : UserIoControl) (w : Esp32) :
  let r := update c w in
  (fst r = c \/
   (_isOn c = true /\ _phase c = USER_IO_PHASE_SPIKE /\
    fst r = assign_phase USER_IO_PHASE_HOLD c) \/
   (_isOn c = true /\ _phase c = USER_IO_PHASE_HOLD /\
    fst r = assign_isOn false c)) /\
  gpio (snd r) = gpio w /\
  (forall ch, ch <> _channel_num c -> ledc (snd r) !! ch = ledc w !! ch) /\
  timer (snd r) = timer w /\
  planner_blocks (snd r) = planner_blocks w.
Proof.
  unfold update, update_spike_hold_off, update_pwm_low_high. cbv zeta.
  destruct (_isOn c) eqn:Hon; [|cbn; auto 6].
  branches;
    repeat match goal with
           | E : (_ =? _) = true |- _ => apply Z.eqb_eq in E
           end;
    try written Hd Hf; branches;
    try (destruct Hf as (Hg & Ht & Hr & Hp & Hl));
    cbn in *;
    (split; [auto 8 |]); auto.
Qed.

(** X4.  [update] changes nothing, and does not read the timer, on a
    channel for which [needsTimerUpdates] is false: the polling task that
    [user_io_control_init] leaves out for such channels would never act on
    them. *)
Theorem update_noop_without_timer_updates (c : UserIoControl) (w : Esp32) :
  needsTimerUpdates c = false -> update c w = (c, w).
Proof.
  unfold needsTimerUpdates. intros E. apply orb_false_iff in E as [E1 E2].
  unfold update.
  destruct (_isOn c); [|reflexivity].
  destruct (_mode c =? USER_IO_MODE_ON_OFF); [reflexivity|].
  steps ltac:(rewrite ?E1, ?E2). reflexivity.
Qed.

(** X5.  [update] changes nothing, and does not read the timer, when the
    phase of the channel is not HOLD and either is not SPIKE or the mode is
    not SPIKE_HOLD_OFF, whatever the on-state and the deadlines are: a
    channel switched on in another mode and moved to a timed mode
    afterwards is never advanced or switched off by the polling. *)
Theorem update_noop_outside_phases (c : UserIoControl) (w : Esp32) :
  _phase c <> USER_IO_PHASE_HOLD ->
  _phase c <> USER_IO_PHASE_SPIKE \/
  _mode c <> USER_IO_MODE_SPIKE_HOLD_OFF ->
  update c w = (c, w).
Proof.
  intros Hh Hs. unfold update, update_spike_hold_off, update_pwm_low_high.
  destruct (_isOn c); [|reflexivity]. cbn [negb].
  branches;
    repeat match goal with
           | E : (_ =? _) = true |- _ => apply Z.eqb_eq in E
           | E : (_ =? _) = false |- _ => apply Z.eqb_neq in E
           end;
    try reflexivity; exfalso; destruct Hs; congruence.
Qed.

(** X6.  In SPIKE_HOLD_OFF mode a channel in SPIKE phase is never switched
    off by [update], whatever [hold_end] is: a duration shorter than the
    spike length does not cut the spike short.  While the timer reading is
    not after [spike_end], the call changes nothing but the count of
    readings. *)
Theorem update_spike_phase_keeps_on (c : UserIoControl) (w : Esp32) :
  phases_distinct ->
  _mode c = USER_IO_MODE_SPIKE_HOLD_OFF ->
  _phase c = USER_IO_PHASE_SPIKE ->
  _isOn c = true ->
  _isOn (fst (update c w)) = true /\
  (USER_IO_MODE_ON_OFF <> USER_IO_MODE_SPIKE_HOLD_OFF ->
   timer w (timer_reads w) <= _spike_end c ->
   update c w = (c, consume 1 w)).
Proof.
  intros Hph Hm Hp Hon. unfold phases_distinct in Hph. split.
  - unfold update, update_spike_hold_off, update_pwm_low_high.
    explore ltac:(rewrite ?Hon, ?Hp); try written Hd Hf;
      explore ltac:(rewrite ?Hon, ?Hp); cbn; first [assumption | reflexivity].
  - intros Hne Ht.
    assert (Hgt : (timer w (timer_reads w) >? _spike_end c) = false)
      by (rewrite Z.gtb_ltb; apply Z.ltb_ge; exact Ht).
    unfold update, update_spike_hold_off, update_pwm_low_high.
    steps ltac:(rewrite ?Hon, ?Hp, ?Hm, ?Hgt).
    destruct (USER_IO_MODE_SPIKE_HOLD_OFF =? USER_MODE_PWM_LOW_HIGH);
      steps idtac; reflexivity.
Qed.

(** The step out of the SPIKE phase. *)
Lemma update_spike_expires (c : UserIoControl) (w : Esp32) :
  USER_IO_MODE_ON_OFF <> USER_IO_MODE_SPIKE_HOLD_OFF ->
  _mode c = USER_IO_MODE_SPIKE_HOLD_OFF ->
  _isOn c = true ->
  _phase c = USER_IO_PHASE_SPIKE ->
  timer w (timer_reads w) > _spike_end c ->
  let r := update c w in
  fst r = assign_phase USER_IO_PHASE_HOLD c /\
  duty_of c (snd r) = wrap 32 (percent_duty (wrap 8 (_hold_percent c))) /\
  timer (snd r) = timer w /\ timer_reads (snd r) = S (timer_reads w).
Proof.
  intros Hne Hm Hon Hp Ht.
  assert (Hgt : (timer w (timer_reads w) >? _spike_end c) = true)
    by (rewrite Z.gtb_ltb; apply Z.ltb_lt; lia).
  unfold update, update_spike_hold_off.
  steps ltac:(rewrite ?Hon, ?Hp, ?Hm, ?Hgt).
  written Hd Hf. steps idtac.
  split; [reflexivity|]. split; [exact Hd|]. split; apply Hf.
Qed.

(** The board after [on(true, d)] in SPIKE_HOLD_OFF mode. *)
Lemma on_true_spike_hold_off_board (c : UserIoControl) (w : Esp32) (d : Z) :
  USER_IO_MODE_ON_OFF <> USER_IO_MODE_SPIKE_HOLD_OFF ->
  _mode c = USER_IO_MODE_SPIKE_HOLD_OFF ->
  let r := on true d c w in
  timer (snd r) = timer w /\
  timer_reads (snd r) =
    ((if (wrap 32 d =? 0)%Z then 1 else 2) + timer_reads w)%nat.
Proof.
  intros Hne Hm. unfold on.
  destruct (wrap 32 d =? 0) eqn:Hz; steps ltac:(rewrite ?Hm, ?Hz);
    written Hd Hf; steps idtac;
    destruct Hf as (_ & Ht & Hr & _); cbn in Ht, Hr;
    (split; [exact Ht | rewrite Hr; reflexivity]).
Qed.

(** ** on in the timed modes *)

(** X7.  In SPIKE_HOLD_OFF mode, for every duration up to 4294967 ms (the
    largest whose microseconds fit 32 bits), [on(true, duration)] enters
    the SPIKE phase, sets [spike_end] to the first timer reading plus the
    spike length in microseconds, sets [hold_end] to 0 for duration 0 and
    to the second reading plus the duration in microseconds otherwise,
    drives the duty of the spike percentage and sets the on-state. *)
Theorem on_true_spike_hold_off_in_range
    (c : UserIoControl) (w : Esp32) (d : Z) :
  USER_IO_MODE_ON_OFF <> USER_IO_MODE_SPIKE_HOLD_OFF ->
  _mode c = USER_IO_MODE_SPIKE_HOLD_OFF ->
  0 <= d <= 4294967 ->
  let r := on true d c w in
  _phase (fst r) = USER_IO_PHASE_SPIKE /\
  _spike_end (fst r) = timer w (timer_reads w) + _spike_length c * 1000 /\
  _hold_end (fst r) =
    (if d =? 0 then 0 else timer w (S (timer_reads w)) + d * 1000) /\
  duty_of c (snd r) = wrap 32 (percent_duty (wrap 8 (_spike_percent c))) /\
  _isOn (fst r) = true.
Proof.
  intros Hne Hm Hd.
  destruct (on_true_spike_hold_off c w d Hne Hm) as (Hc & Hdy & _).
  cbv zeta in *. rewrite Hc.
  cbn [assign_isOn assign_hold_end assign_spike_end assign_phase
       _phase _spike_end _hold_end _isOn].
  rewrite (wrap_small 32 d) by (change (2 ^ 32) with 4294967296; lia).
  rewrite (wrap_small 32 (d * 1000))
    by (change (2 ^ 32) with 4294967296; lia).
  repeat split; try reflexivity. exact Hdy.
Qed.

(** X8.  In PWM_LOW_HIGH mode, for every duration up to 4294967 ms,
    [on(true, duration)] enters the HOLD phase directly, leaves
    [spike_end] as it is, sets [hold_end] to 0 for duration 0 (without
    reading the timer) and to the timer reading plus the duration in
    microseconds otherwise, drives the high duty level and sets the
    on-state. *)
Theorem on_true_pwm_low_high (c : UserIoControl) (w : Esp32) (d : Z) :
  USER_IO_MODE_ON_OFF <> USER_MODE_PWM_LOW_HIGH ->
  USER_IO_MODE_SPIKE_HOLD_OFF <> USER_MODE_PWM_LOW_HIGH ->
  _mode c = USER_MODE_PWM_LOW_HIGH ->
  0 <= d <= 4294967 ->
  let r := on true d c w in
  fst r =
    assign_isOn true
      (assign_hold_end
         (if d =? 0 then 0 else timer w (timer_reads w) + d * 1000)
         (assign_phase USER_IO_PHASE_HOLD c)) /\
  duty_of c (snd r) = wrap 32 (_pwm_duty_high c) /\
  timer_reads (snd r) =
    ((if (d =? 0)%Z then 0 else 1) + timer_reads w)%nat.
Proof.
  intros H02 H12 Hm Hd. unfold on.
  rewrite (wrap_small 32 d) by (change (2 ^ 32) with 4294967296; lia).
  rewrite (wrap_small 32 (d * 1000))
    by (change (2 ^ 32) with 4294967296; lia).
  destruct (d =? 0) eqn:Hz; steps ltac:(rewrite ?Hm, ?Hz);
    written Hdy Hf; steps idtac;
    destruct Hf as (_ & _ & Hr & _); cbn in Hr;
    (split; [reflexivity | split; [exact Hdy | rewrite Hr; reflexivity]]).
Qed.

(** X9.  In SPIKE_HOLD_OFF mode the result of [on(true, d)] does not depend
    on the phase, the deadlines and the on-state the channel had: switching
    on a channel that is already on starts the spike again, with new
    deadlines. *)
Theorem on_true_restarts (c : UserIoControl) (w : Esp32) (d : Z)
    (p se he : Z) (b : bool) :
  USER_IO_MODE_ON_OFF <> USER_IO_MODE_SPIKE_HOLD_OFF ->
  _mode c = USER_IO_MODE_SPIKE_HOLD_OFF ->
  fst (on true d
         (assign_isOn b
            (assign_hold_end he (assign_spike_end se (assign_phase p c))))
         w) =
  fst (on true d c w).
Proof.
  intros Hne Hm.
  destruct (on_true_spike_hold_off c w d Hne Hm) as (Hc & _).
  destruct (on_true_spike_hold_off
              (assign_isOn b
                 (assign_hold_end he
                    (assign_spike_end se (assign_phase p c)))) w d Hne Hm)
    as (Hc' & _).
  cbv zeta in *. rewrite Hc, Hc'. reflexivity.
Qed.

(** X10.  The whole cycle in SPIKE_HOLD_OFF mode, for a duration [d] with
    [0 < d <= 4294967]: after [on(true, d)], a call of [update] whose
    reading is after the spike length moves the channel to HOLD phase at
    the duty of the hold percentage, still on; the next call whose reading
    is more than [d] ms after the second reading of [on] drives duty 0 and
    clears the on-state. *)
Theorem spike_hold_off_cycle (c : UserIoControl) (w : Esp32) (d : Z) :
  case_labels_distinct -> phases_distinct ->
  _mode c = USER_IO_MODE_SPIKE_HOLD_OFF ->
  0 < d <= 4294967 ->
  0 <= timer w (1 + timer_reads w)%nat ->
  timer w (2 + timer_reads w)%nat >
    timer w (timer_reads w) + _spike_length c * 1000 ->
  timer w (3 + timer_reads w)%nat >
    timer w (1 + timer_reads w)%nat + d * 1000 ->
  let r1 := on true d c w in
  let r2 := update (fst r1) (snd r1) in
  let r3 := update (fst r2) (snd r2) in
  (_isOn (fst r2) = true /\ _phase (fst r2) = USER_IO_PHASE_HOLD /\
   duty_of c (snd r2) = wrap 32 (percent_duty (wrap 8 (_hold_percent c)))) /\
  (_isOn (fst r3) = false /\ duty_of c (snd r3) = 0).
Proof.
  intros Hcl Hph Hm Hd Ht1 Ht2 Ht3.
  pose proof Hcl as (H01 & H02 & H12).
  intros r1 r2 r3.
  destruct (on_true_spike_hold_off c w d H01 Hm) as (Hc1 & _).
  destruct (on_true_spike_hold_off_board c w d H01 Hm) as (Htm1 & Hrd1).
  fold r1 in Hc1, Htm1, Hrd1.
  rewrite (wrap_small 32 d) in Hc1, Hrd1
    by (change (2 ^ 32) with 4294967296; lia).
  rewrite (wrap_small 32 (d * 1000)) in Hc1
    by (change (2 ^ 32) with 4294967296; lia).
  rewrite (proj2 (Z.eqb_neq d 0)) in Hc1, Hrd1 by lia.
  destruct (update_spike_expires (fst r1) (snd r1)) as (Hc2 & Hd2 & Htm2 & Hrd2);
    try (rewrite Hc1; try reflexivity; exact Hm); try exact H01.
  { rewrite Htm1, Hrd1, Hc1. cbn [assign_isOn assign_hold_end
      assign_spike_end _spike_end]. exact Ht2. }
  fold r2 in Hc2, Hd2, Htm2, Hrd2.
  assert (Hobj : fst r2 =
    assign_phase USER_IO_PHASE_HOLD
      (assign_isOn true
         (assign_hold_end (timer w (S (timer_reads w)) + d * 1000)
            (assign_spike_end (timer w (timer_reads w) + _spike_length c * 1000)
               (assign_phase USER_IO_PHASE_SPIKE c)))))
    by (rewrite Hc2, Hc1; reflexivity).
  split.
  - rewrite Hobj. split; [reflexivity|]. split; [reflexivity|].
    rewrite Hc1 in Hd2. exact Hd2.
  - destruct (update_hold_expires (fst r2) (snd r2) Hcl Hph)
      as (Hc3 & Hd3); try (rewrite Hobj; reflexivity).
    + left. rewrite Hobj. exact Hm.
    + rewrite Hobj. cbn [assign_phase assign_isOn assign_hold_end _hold_end].
      change (S (timer_reads w)) with (1 + timer_reads w)%nat. lia.
    + rewrite Htm2, Hrd2, Htm1, Hrd1, Hobj.
      cbn [assign_phase assign_isOn assign_hold_end _hold_end].
      exact Ht3.
    + fold r3 in Hc3, Hd3. split.
      * rewrite Hc3. reflexivity.
      * rewrite Hobj in Hd3. cbn [assign_phase assign_isOn assign_hold_end
          assign_spike_end _mode _channel_num] in Hd3.
        rewrite Hm, Z.eqb_refl in Hd3. exact Hd3.
Qed.

(** ** The setters *)

(** X11.  [set_pwm_freq_bits] keeps the frequency within 50..10000 Hz and
    the resolution within 8..16 bits once they are, whatever arguments it
    is called with. *)
Theorem set_pwm_freq_bits_keeps_ranges (f b : Z) (c : UserIoControl) :
  50 <= _pwm_freq c <= 10000 ->
  8 <= _pwm_resolution_bits c <= 16 ->
  50 <= _pwm_freq (set_pwm_freq_bits f b c) <= 10000 /\
  8 <= _pwm_resolution_bits (set_pwm_freq_bits f b c) <= 16.
Proof.
  intros Hf Hb. unfold set_pwm_freq_bits. cbv zeta.
  destruct (Z.geb_spec (wrap 32 f) 50), (Z.leb_spec (wrap 32 f) 10000),
    (Z.geb_spec (wrap 8 b) 8), (Z.leb_spec (wrap 8 b) 16);
    cbn; lia.
Qed.

Lemma wrap_32_of_16 (x : Z) : wrap 32 (wrap 16 x) = wrap 16 x.
Proof.
  apply wrap_small. pose proof (wrap_range 16 x ltac:(lia)) as Hr.
  change (2 ^ 16) with 65536 in Hr. change (2 ^ 32) with 4294967296. lia.
Qed.

(** X12.  After [set_pwm_low_high(low, high)] a channel in PWM_LOW_HIGH
    mode is driven at [high mod 2^16] by [on(true, d)] and at
    [low mod 2^16] by [on(false, d)], for every [d]: the levels are raw
    duties of 16 bits, taken as given whatever the resolution is. *)
Theorem set_pwm_low_high_levels (low high d : Z) (c : UserIoControl)
    (w : Esp32) :
  USER_IO_MODE_ON_OFF <> USER_MODE_PWM_LOW_HIGH ->
  USER_IO_MODE_SPIKE_HOLD_OFF <> USER_MODE_PWM_LOW_HIGH ->
  _mode c = USER_MODE_PWM_LOW_HIGH ->
  let c' := set_pwm_low_high low high c in
  duty_of c (snd (on true d c' w)) = wrap 16 high /\
  duty_of c (snd (on false d c' w)) = wrap 16 low.
Proof.
  intros H02 H12 Hm c'.
  assert (Hm' : _mode c' = USER_MODE_PWM_LOW_HIGH) by exact Hm.
  split; unfold on.
  - explore ltac:(rewrite ?Hm'); written Hd Hf; steps idtac;
      rewrite <- (wrap_32_of_16 high); exact Hd.
  - explore ltac:(rewrite ?Hm'); written Hd Hf; steps idtac;
      rewrite <- (wrap_32_of_16 low); exact Hd.
Qed.

(** ** init *)

Lemma off_object (c : UserIoControl) (w : Esp32) :
  fst (off c w) = assign_isOn false c.
Proof.
  unfold off. cbv [mbind M_bind mret M_ret].
  match goal with |- context [let (_, _) := ?m in _] => destruct m end.
  reflexivity.
Qed.


(** The object [init] returns does not depend on the outputs. *)
Lemma init_object (c : UserIoControl) (s : Soc) :
  fst (init c s) =
    if (_mode c =? USER_IO_MODE_ON_OFF)
       || (_mode c =? USER_IO_MODE_SPIKE_HOLD_OFF)
    then assign_isOn false c else c.
Proof.
  unfold init, on_esp.
  destruct (_mode c =? USER_IO_MODE_ON_OFF); cbn [orb].
  - match goal with |- context [off c ?w] =>
      pose proof (off_object c w) as Ho; destruct (off c w) end.
    exact Ho.
  - destruct (_mode c =? USER_IO_MODE_SPIKE_HOLD_OFF).
    + match goal with |- context [off c ?w] =>
        pose proof (off_object c w) as Ho; destruct (off c w) end.
      exact Ho.
    + destruct (_mode c =? USER_MODE_PWM_LOW_HIGH); [|reflexivity].
      match goal with |- context [_write_pwm ?d c ?w] =>
        destruct (_write_pwm d c w) end.
      reflexivity.
Qed.

Lemma init_mode (c : UserIoControl) (s : Soc) :
  _mode (fst (init c s)) = _mode c.
Proof.
  rewrite init_object.
  destruct ((_mode c =? USER_IO_MODE_ON_OFF)
            || (_mode c =? USER_IO_MODE_SPIKE_HOLD_OFF)); reflexivity.
Qed.



(** ** Start-up *)

Lemma init_fst_indep (c : UserIoControl) (s s' : Soc) :
  fst (init c s) = fst (init c s').
Proof. rewrite !init_object. reflexivity. Qed.

Lemma init_needsTimerUpdates (c : UserIoControl) (s : Soc) :
  needsTimerUpdates (fst (init c s)) = needsTimerUpdates c.
Proof. unfold needsTimerUpdates. rewrite init_mode. reflexivity. Qed.

(** One block of [user_io_control_init]. *)
Lemma Pin_init_progress (f0 : Firmware) (j : Z) (st : Firmware * bool) :
  0 <= j ->
  init_progress f0 j st ->
  init_progress f0 (j + 1) (Pin_init (j + 1) st).
Proof.
  intros Hj (Hobj & Hflag & Htask). destruct st as [f b]. cbn [fst snd] in *.
  unfold Pin_init.
  assert (Hcur : objects f !! (j + 1) = objects f0 !! (j + 1)).
  { rewrite Hobj. destruct (decide (1 <= j + 1 <= j)); [lia | reflexivity]. }
  destruct (objects f !! (j + 1)) as [c|] eqn:Ec.
  - pose proof (init_fst_indep c (soc f) (soc f0)) as Hind.
    pose proof (init_needsTimerUpdates c (soc f)) as Hneed.
    destruct (init c (soc f)) as [c' s']. cbn [fst snd] in *. subst c'.
    split; [|split]; cbn [fst snd objects sync_tasks].
    + intros k. destruct (decide (k = j + 1)) as [->|Hk].
      * rewrite lookup_insert_eq, <- Hcur.
        destruct (decide (1 <= j + 1 <= j + 1)); [reflexivity | lia].
      * rewrite lookup_insert_ne by congruence. rewrite Hobj.
        destruct (decide (1 <= k <= j)), (decide (1 <= k <= j + 1));
          try reflexivity; lia.
    + rewrite Hneed. destruct (needsTimerUpdates c) eqn:En.
      * split; [|reflexivity]. intros _. exists (j + 1), c.
        repeat split; first [lia | congruence | assumption].
      * rewrite Hflag. split.
        -- intros (k & c1 & Hk & Hc1 & Hn). exists k, c1.
           repeat split; first [lia | assumption].
        -- intros (k & c1 & Hk & Hc1 & Hn).
           destruct (decide (k = j + 1)) as [->|Hne].
           ++ rewrite <- Hcur in Hc1. congruence.
           ++ exists k, c1. repeat split; first [lia | assumption].
    + exact Htask.
  - split; [|split]; cbn [fst snd].
    + intros k. rewrite Hobj.
      destruct (decide (k = j + 1)) as [->|Hk].
      * destruct (decide (1 <= j + 1 <= j)); [lia|].
        destruct (decide (1 <= j + 1 <= j + 1)); [|lia].
        rewrite <- Hcur. reflexivity.
      * destruct (decide (1 <= k <= j)), (decide (1 <= k <= j + 1));
          try reflexivity; lia.
    + rewrite Hflag. split.
      * intros (k & c1 & Hk & Hc1 & Hn). exists k, c1.
        repeat split; first [lia | assumption].
      * intros (k & c1 & Hk & Hc1 & Hn).
        destruct (decide (k = j + 1)) as [->|Hne].
        -- rewrite <- Hcur in Hc1. congruence.
        -- exists k, c1. repeat split; first [lia | assumption].
    + exact Htask.
Qed.

(** What one call of [user_io_control_init] does. *)
Lemma user_io_control_init_once (f : Firmware) :
  let f' := user_io_control_init f in
  (forall k c, 1 <= k <= 6 -> objects f !! k = Some c ->
     objects f' !! k = Some (fst (init c (soc f)))) /\
  (forall k, objects f !! k = None -> objects f' !! k = None) /\
  ((exists k c, 1 <= k <= 6 /\ objects f !! k = Some c /\
                needsTimerUpdates c = true) ->
   sync_tasks f' = S (sync_tasks f)) /\
  ((forall k c, 1 <= k <= 6 -> objects f !! k = Some c ->
                needsTimerUpdates c = false) ->
   sync_tasks f' = sync_tasks f).
Proof.
  assert (H0 : init_progress f 0 (f, false)).
  { split; [|split]; cbn [fst snd].
    - intros k. destruct (decide (1 <= k <= 0)); [lia | reflexivity].
    - split; [discriminate|]. intros (k & c & Hk & _). lia.
    - reflexivity. }
  pose proof (Pin_init_progress f 0 _ ltac:(lia) H0) as H1.
  pose proof (Pin_init_progress f 1 _ ltac:(lia) H1) as H2.
  pose proof (Pin_init_progress f 2 _ ltac:(lia) H2) as H3.
  pose proof (Pin_init_progress f 3 _ ltac:(lia) H3) as H4.
  pose proof (Pin_init_progress f 4 _ ltac:(lia) H4) as H5.
  pose proof (Pin_init_progress f 5 _ ltac:(lia) H5) as H6.
  change (0 + 1) with 1 in *. change (1 + 1) with 2 in *.
  change (2 + 1) with 3 in *. change (3 + 1) with 4 in *.
  change (4 + 1) with 5 in *. change (5 + 1) with 6 in *.
  clear H0 H1 H2 H3 H4 H5.
  unfold user_io_control_init. cbv zeta.
  destruct (Pin_init 6 (Pin_init 5 (Pin_init 4 (Pin_init 3 (Pin_init 2
              (Pin_init 1 (f, false))))))) as [f6 b6].
  destruct H6 as (Hobj & Hflag & Htask). cbn [fst snd] in *.
  assert (Hobj' : forall k,
    objects (if b6 then {| objects := objects f6; soc := soc f6;
                           sync_tasks := S (sync_tasks f6) |} else f6) !! k =
    objects f6 !! k) by (intros k; destruct b6; reflexivity).
  split; [|split; [|split]].
  - intros k c Hk Hc. rewrite Hobj', Hobj, Hc.
    destruct (decide (1 <= k <= 6)); [reflexivity | lia].
  - intros k Hc. rewrite Hobj', Hobj, Hc.
    destruct (decide (1 <= k <= 6)); reflexivity.
  - intros Hex. apply Hflag in Hex. rewrite Hex. cbn. rewrite Htask.
    reflexivity.
  - intros Hall. destruct b6; [|exact Htask].
    exfalso. destruct (proj1 Hflag eq_refl) as (k & c & Hk & Hc & Hn).
    rewrite (Hall k c Hk Hc) in Hn. discriminate.
Qed.

(** X15.  [user_io_control_init] replaces each configured object 1..6 by
    the one its [init] returns and leaves every other entry alone; it
    creates the polling task, once, exactly when one of the configured
    objects 1..6 is in a mode that needs timer updates, and no task
    otherwise.  Nothing keeps a second call from creating a second
    task. *)
Theorem user_io_control_init_result (f : Firmware) :
  let f' := user_io_control_init f in
  (forall k c, 1 <= k <= 6 -> objects f !! k = Some c ->
     objects f' !! k = Some (fst (init c (soc f)))) /\
  (forall k, objects f !! k = None -> objects f' !! k = None) /\
  ((exists k c, 1 <= k <= 6 /\ objects f !! k = Some c /\
                needsTimerUpdates c = true) ->
   sync_tasks f' = S (sync_tasks f) /\
   sync_tasks (user_io_control_init f') = S (S (sync_tasks f))) /\
  ((forall k c, 1 <= k <= 6 -> objects f !! k = Some c ->
                needsTimerUpdates c = false) ->
   sync_tasks f' = sync_tasks f).
Proof.
  destruct (user_io_control_init_once f) as (Ho & Hn & Ht & Hf).
  cbv zeta. split; [exact Ho | split; [exact Hn | split; [|exact Hf]]].
  intros Hex. split; [apply Ht, Hex|].
  destruct (user_io_control_init_once (user_io_control_init f))
    as (_ & _ & Ht' & _).
  cbv zeta in Ht'. rewrite Ht'; [rewrite (Ht Hex); reflexivity|].
  destruct Hex as (k & c & Hk & Hc & Hneed).
  exists k, (fst (init c (soc f))). split; [exact Hk|].
  split; [apply Ho; assumption|].
  rewrite init_needsTimerUpdates. exact Hneed.
Qed.

(** ** The polling task *)

Lemma update_polled_object (c : UserIoControl) (w : Esp32) :
  _mode (fst (update c w)) = _mode c /\
  (_isOn c = false -> fst (update c w) = c).
Proof.
  split.
  - unfold update, update_spike_hold_off, update_pwm_low_high.
    explore idtac; try written Hd Hf; explore idtac; reflexivity.
  - intros E. rewrite (update_off c w E). reflexivity.
Qed.

Lemma polled_refl (g : Grbl) : polled g g.
Proof.
  split.
  - intros k c Hc. exists c. auto.
  - auto.
Qed.

Lemma polled_trans (g1 g2 g3 : Grbl) :
  polled g1 g2 -> polled g2 g3 -> polled g1 g3.
Proof.
  intros [Ha Hna] [Hb Hnb]. split.
  - intros k c Hc. destruct (Ha k c Hc) as (c2 & Hc2 & Hm2 & Hoff2).
    destruct (Hb k c2 Hc2) as (c3 & Hc3 & Hm3 & Hoff3).
    exists c3. split; [exact Hc3|]. split; [congruence|].
    intros E. specialize (Hoff2 E). subst c2. auto.
  - auto.
Qed.

Lemma Pin_update_polled (n : Z) (g : Grbl) : polled g (Pin_update n g).
Proof.
  unfold Pin_update. destruct (pins g !! n) as [c|] eqn:Ec;
    [|apply polled_refl].
  pose proof (update_polled_object c (board g)) as (Hm & Hoff).
  destruct (update c (board g)) as [c' w]. cbn [fst] in *.
  split; cbn [pins].
  - intros k c0 Hc0. destruct (decide (k = n)) as [->|Hk].
    + rewrite lookup_insert_eq. exists c'.
      assert (c0 = c) as -> by congruence. auto.
    + rewrite lookup_insert_ne by congruence. exists c0. auto.
  - intros k Hk. destruct (decide (k = n)) as [->|Hne]; [congruence|].
    rewrite lookup_insert_ne by congruence. exact Hk.
Qed.

Lemma userIoSyncTask_pass_polled (g : Grbl) :
  polled g (userIoSyncTask_pass g).
Proof.
  unfold userIoSyncTask_pass. cbv zeta.
  repeat (eapply polled_trans; [|apply Pin_update_polled]).
  apply polled_refl.
Qed.

(** X16.  However many rounds the polling task has run, and whatever the
    timer read: every object is still there and in its mode, no object has
    appeared, and an object that was off is exactly as it was.  The task
    never switches a channel on and never revives one that was switched
    off. *)
Theorem userIoSyncTask_keeps_off_channels (n : nat) (g : Grbl) :
  (forall k c, pins g !! k = Some c ->
     exists c', pins (userIoSyncTask_passes n g) !! k = Some c' /\
                _mode c' = _mode c /\
                (_isOn c = false -> c' = c)) /\
  (forall k, pins g !! k = None ->
     pins (userIoSyncTask_passes n g) !! k = None).
Proof.
  change (polled g (userIoSyncTask_passes n g)).
  revert g. induction n as [|n IH]; intros g.
  - apply polled_refl.
  - cbn [userIoSyncTask_passes].
    eapply polled_trans; [apply userIoSyncTask_pass_polled | apply IH].
Qed.

(** ** The mask of the dispatcher *)

(** X17.  The dispatcher looks at the bits 1 to 6 of the mask only: two
    masks that agree on these bits give the same result, so bit 0, bit 7
    and everything above the low byte are ignored. *)
Theorem sys_io_control_mask_bits (m m' : Z) (b : bool) (d : Z) (g : Grbl) :
  (forall n, 1 <= n <= 6 -> Z.testbit m n = Z.testbit m' n) ->
  sys_io_control m b d g = sys_io_control m' b d g.
Proof.
  intros Hbits.
  assert (Hmask : forall n, 1 <= n <= 6 ->
            mask_bit (wrap 8 m) n = mask_bit (wrap 8 m') n).
  { intros n Hn. rewrite !mask_bit_testbit by lia. unfold wrap.
    rewrite !Z.mod_pow2_bits_low by lia. apply Hbits, Hn. }
  unfold sys_io_control. cbv zeta.
  rewrite (Hmask 1), (Hmask 2), (Hmask 3), (Hmask 4), (Hmask 5), (Hmask 6)
    by lia.
  reflexivity.
Qed.

(** ** ON_OFF mode *)

Lemma update_on_off (c : UserIoControl) (w : Esp32) :
  _mode c = USER_IO_MODE_ON_OFF -> update c w = (c, w).
Proof.
  intros E. unfold update. rewrite E, Z.eqb_refl.
  destruct (_isOn c); reflexivity.
Qed.

(** X18.  In ON_OFF mode [on(isOn, duration)] writes the level [isOn] to
    the pin, records it as the on-state and does nothing else: no PWM
    register is written, the timer is not read, and the duration is
    ignored.  No number of [update] calls changes the channel afterwards,
    so a channel in this mode never switches off by itself, whatever
    duration was given. *)
Theorem on_on_off_ignores_duration
    (b : bool) (d d' : Z) (c : UserIoControl) (w : Esp32) (n : nat) :
  _mode c = USER_IO_MODE_ON_OFF ->
  let r := on b d c w in
  r = on b d' c w /\
  fst r = assign_isOn b c /\
  gpio (snd r) !! _pin_num c = Some b /\
  ledc (snd r) = ledc w /\
  timer_reads (snd r) = timer_reads w /\
  updates n (fst r) (snd r) = r.
Proof.
  intros Hm.
  assert (Hon : forall x, on b x c w =
            (assign_isOn b c, snd (digitalWrite (_pin_num c) b w))).
  { intros x. unfold on. steps ltac:(rewrite ?Hm). reflexivity. }
  cbv zeta. rewrite (Hon d), (Hon d'). cbn [fst snd].
  repeat split.
  - cbv [digitalWrite]. cbn. apply lookup_insert_eq.
  - induction n as [|n IH]; [reflexivity|].
    rewrite updates_last, IH. cbn [fst snd].
    apply update_on_off. exact Hm.
Qed.

(** ** The hold length *)

(** X19.  The member that [set_hold_length] stores is read by no
    operation: [on] and [update] act on the board in the same way and
    return the same object, apart from that member, whatever hold length
    was set. *)
Theorem set_hold_length_unused
    (x : Z) (b : bool) (d : Z) (c : UserIoControl) (w : Esp32) :
  on b d (set_hold_length x c) w =
    (set_hold_length x (fst (on b d c w)), snd (on b d c w)) /\
  update (set_hold_length x c) w =
    (set_hold_length x (fst (update c w)), snd (update c w)).
Proof.
  split.
  - unfold on, _write_percent, _write_pwm. cbv zeta.
    cbv [ledcRead ledcWrite digitalWrite].
    explore ltac:(cbn [set_hold_length assign_phase assign_spike_end
      assign_hold_end assign_isOn _mode _pin_num _channel_num _isOn _phase
      _spike_length _spike_percent _hold_percent _pwm_duty_low
      _pwm_duty_high _spike_end _hold_end ledc]); reflexivity.
  - unfold update, update_spike_hold_off, update_pwm_low_high,
      _write_percent, _write_pwm. cbv zeta.
    cbv [ledcRead ledcWrite].
    explore ltac:(cbn [set_hold_length assign_phase assign_spike_end
      assign_hold_end assign_isOn _mode _pin_num _channel_num _isOn _phase
      _spike_length _spike_percent _hold_percent _pwm_duty_low
      _pwm_duty_high _spike_end _hold_end ledc]); reflexivity.
Qed.

End Further.

(** * Examples *)

#[local] Existing Instance example_header.

(** The values of the scenario of the specification, at 8 bits. *)
Lemma percent_duty_examples :
  percent_duty 80 = 204 /\ percent_duty 20 = 51 /\
  percent_duty 0 = 0 /\ percent_duty 100 = 255 /\ percent_duty 255 = 255.
Proof. repeat split; reflexivity. Qed.

Lemma on_true_spike_hold_off_duration_wraps_witness :
  _hold_end (fst (on true 4294968 example_channel example_board)) =
    50000 + 704 /\
  _isOn (fst (on true 4294968 example_channel example_board)) = true.
Proof.
  destruct (@on_true_spike_hold_off_duration_wraps example_header
              example_channel example_board)
    as (_ & _ & Hh & _ & _ & Ho).
  - cbn. lia.
  - reflexivity.
  - split; [exact Hh | exact Ho].
Defined.

Lemma sys_io_control_first_match_witness :
  sys_io_control 12 true 500 example_grbl =
    {| pins := <[2 := fst (on true 500 example_channel example_board)]>
                 (pins example_grbl);
       board := snd (on true 500 example_channel example_board) |}.
Proof.
  refine (proj1 (@sys_io_control_first_match example_header example_grbl
                   12 true 500) 2 example_channel _ _ _ _).
  - lia.
  - reflexivity.
  - reflexivity.
  - intros k Hk. assert (k = 1) as -> by lia. left. reflexivity.
Defined.

Lemma update_noop_when_off_or_on_off_witness :
  update example_channel example_board = (example_channel, example_board).
Proof.
  apply (@update_noop_when_off_or_on_off example_header).
  left. reflexivity.
Defined.

Lemma update_spike_to_hold_single_transition_witness :
  example_timer 3 > _spike_end example_spiking /\
  fst (update example_spiking (consume 3 example_board)) = example_holding /\
  duty_of example_spiking
    (snd (update example_spiking (consume 3 example_board))) = 51.
Proof.
  destruct (@update_spike_to_hold_single_transition example_header
              example_spiking (consume 3 example_board))
    as (Hc & _ & _ & Hd & _).
  - cbn. lia.
  - reflexivity.
  - reflexivity.
  - reflexivity.
  - reflexivity.
  - split; [reflexivity | split; [exact Hc | exact Hd]].
Defined.

Lemma update_hold_phase_timeout_witness :
  updates 11 example_holding example_board =
    (example_holding, consume 11 example_board) /\
  fst (updates 12 example_holding example_board) =
    assign_isOn false example_holding /\
  duty_of example_holding (snd (updates 12 example_holding example_board)) = 0.
Proof.
  refine (proj2 (@update_hold_phase_timeout example_header example_holding
                   example_board _ _ _ _ _) _ 11%nat _ _).
  - cbv. repeat split; discriminate.
  - cbv. discriminate.
  - left. reflexivity.
  - reflexivity.
  - reflexivity.
  - cbn. lia.
  - intros i Hi. cbn. unfold example_timer. lia.
  - reflexivity.
Defined.

Lemma off_equals_on_false_witness :
  off example_low_high example_board =
    on false 500 example_low_high example_board /\
  duty_of example_low_high (snd (off example_low_high example_board)) = 3276.
Proof.
  destruct (@off_equals_on_false example_header example_low_high
              example_board 500) as (He & _ & _ & Hd & _).
  - cbn. lia.
  - split; [exact He|]. apply Hd.
    + cbn. lia.
    + reflexivity.
Defined.

Lemma write_percent_ignores_configured_resolution_witness :
  _pwm_resolution_bits (set_pwm_freq_bits 5000 16 example_channel) = 16 /\
  duty_of (set_pwm_freq_bits 5000 16 example_channel)
    (snd (_write_percent 100 (set_pwm_freq_bits 5000 16 example_channel)
            example_board)) = 255.
Proof.
  destruct (@write_percent_ignores_configured_resolution example_header
              example_channel example_board 5000 16)
    as (Hb & _ & Hd & _).
  - cbn. lia.
  - lia.
  - cbn. lia.
  - split; [exact Hb | exact Hd].
Defined.

(** With the three mode numbers distinct, [set_mode] cannot select each of
    them, whatever the numbers are. *)
Lemma set_mode_enumerated_counterexample :
  ~ (exists h : UserIoHeader,
       @case_labels_distinct h /\
       forall m c,
         m = @USER_IO_MODE_ON_OFF h \/ m = @USER_IO_MODE_SPIKE_HOLD_OFF h \/
         m = @USER_MODE_PWM_LOW_HIGH h ->
         _mode (set_mode m c) = m).
Proof.
  intros (h & Hd & Hall).
  destruct (@some_mode_not_selectable h Hd) as (m & Hm & Hrej).
  apply (Hrej (assign_mode (m + 1) example_channel)).
  - cbn. lia.
  - apply Hall. exact Hm.
Qed.

Lemma setters_accept_exactly_witness :
  set_mode 0 example_channel = example_channel /\
  set_mode 2 example_channel = assign_mode 2 example_channel /\
  _pwm_freq (set_pwm_freq_bits 49 16 example_channel) = 5000 /\
  _pwm_resolution_bits (set_pwm_freq_bits 49 16 example_channel) = 16.
Proof.
  destruct (@setters_accept_exactly example_header example_channel 0 49 16)
    as (_ & H0 & _ & Hf & Hb & _); try (cbn; lia).
  destruct (@setters_accept_exactly example_header example_channel 2 49 16)
    as (H2 & _); try (cbn; lia).
  split; [apply H0; lia | split; [apply H2; lia | split]].
  - exact Hf.
  - exact Hb.
Defined.

Lemma on_default_mode_duty_witness :
  duty_of example_unknown_mode
    (snd (on true 0 example_unknown_mode example_board)) = 256 /\
  duty_of example_unknown_mode
    (snd (on false 0 example_unknown_mode example_board)) = 0.
Proof.
  destruct (@on_default_mode_duty example_header example_unknown_mode
              example_board 0) as (Hon & _ & _ & _ & Hoff).
  - cbn. lia.
  - vm_compute. discriminate.
  - vm_compute. discriminate.
  - vm_compute. discriminate.
  - split; [exact Hon | exact Hoff].
Defined.

Lemma sys_io_control_duration_16_bits_witness :
  sys_io_control 4 true 65536 example_grbl =
    sys_io_control 4 true 0 example_grbl /\
  _hold_end (fst (on true 65535 example_channel example_board)) =
    50000 + 65535 * 1000 /\
  _hold_end (fst (on true 65536 example_channel example_board)) =
    50000 + 65536 * 1000.
Proof.
  destruct (@sys_io_control_duration_16_bits example_header example_grbl
              4 true 65536) as (He & _ & _ & Hd & Hdirect).
  split; [exact He | split].
  - apply (Hd example_channel example_board 65535).
    + cbn. lia.
    + reflexivity.
    + lia.
  - apply (Hdirect example_channel example_board).
    + cbn. lia.
    + reflexivity.
Defined.

(** ** Examples for the further properties *)

Lemma _write_pwm_writes_only_changes_witness :
  snd (_write_pwm 0 example_channel example_board) = example_board /\
  ledc_writes (snd (_write_pwm 204 example_channel example_board)) = 1%nat.
Proof.
  destruct (_write_pwm_writes_only_changes 0 example_channel
              example_board) as (Hs & _).
  destruct (_write_pwm_writes_only_changes 204
              example_channel example_board) as (_ & Ho & _).
  split.
  - apply Hs. reflexivity.
  - apply Ho. vm_compute. discriminate.
Defined.

Lemma update_noop_without_timer_updates_witness :
  update (assign_isOn true example_unknown_mode) example_board =
    (assign_isOn true example_unknown_mode, example_board).
Proof.
  apply (@update_noop_without_timer_updates example_header).
  reflexivity.
Defined.

Lemma update_noop_outside_phases_witness :
  update (assign_isOn true example_channel) (consume 9 example_board) =
    (assign_isOn true example_channel, consume 9 example_board).
Proof.
  apply (@update_noop_outside_phases example_header).
  - vm_compute. discriminate.
  - left. vm_compute. discriminate.
Defined.

Lemma update_spike_phase_keeps_on_witness :
  _isOn (fst (update example_spiking (consume 20 example_board))) = true /\
  update example_spiking example_board =
    (example_spiking, consume 1 example_board).
Proof.
  destruct (@update_spike_phase_keeps_on example_header example_spiking
              (consume 20 example_board)) as (Hk & _);
    try reflexivity; [vm_compute; discriminate|].
  destruct (@update_spike_phase_keeps_on example_header example_spiking
              example_board) as (_ & Hw);
    try reflexivity; [vm_compute; discriminate|].
  split; [exact Hk|]. apply Hw.
  - vm_compute. discriminate.
  - vm_compute. discriminate.
Defined.

Lemma on_true_spike_hold_off_in_range_witness :
  _spike_end (fst (on true 500 example_channel example_board)) = 100000 /\
  _hold_end (fst (on true 500 example_channel example_board)) = 550000 /\
  duty_of example_channel (snd (on true 500 example_channel example_board))
    = 204.
Proof.
  destruct (@on_true_spike_hold_off_in_range example_header example_channel
              example_board 500) as (_ & Hs & Hh & Hd & _).
  - vm_compute. discriminate.
  - reflexivity.
  - lia.
  - split; [exact Hs | split; [exact Hh | exact Hd]].
Defined.

Lemma on_true_pwm_low_high_witness :
  _phase (fst (on true 500 example_low_high example_board)) = 2 /\
  _hold_end (fst (on true 500 example_low_high example_board)) = 500000 /\
  duty_of example_low_high
    (snd (on true 500 example_low_high example_board)) = 6553.
Proof.
  destruct (@on_true_pwm_low_high example_header example_low_high
              example_board 500) as (Hc & Hd & _).
  - vm_compute. discriminate.
  - vm_compute. discriminate.
  - reflexivity.
  - lia.
  - rewrite Hc. split; [reflexivity | split; [reflexivity | exact Hd]].
Defined.

Lemma on_true_restarts_witness :
  fst (on true 500 example_holding example_board) =
  fst (on true 500 example_channel example_board).
Proof.
  apply (@on_true_restarts example_header example_channel example_board 500
           2 100000 500000 true).
  - vm_compute. discriminate.
  - reflexivity.
Defined.

Lemma spike_hold_off_cycle_witness :
  let r1 := on true 50 example_short_spike example_board in
  let r2 := update (fst r1) (snd r1) in
  let r3 := update (fst r2) (snd r2) in
  (_isOn (fst r2) = true /\ duty_of example_short_spike (snd r2) = 51) /\
  (_isOn (fst r3) = false /\ duty_of example_short_spike (snd r3) = 0).
Proof.
  destruct (@spike_hold_off_cycle example_header example_short_spike
              example_board 50) as ((Ha & _ & Hb) & Hc & Hd).
  - vm_compute. repeat split; discriminate.
  - vm_compute. discriminate.
  - reflexivity.
  - lia.
  - vm_compute. discriminate.
  - reflexivity.
  - reflexivity.
  - cbv zeta. split; split; assumption.
Defined.

Lemma set_pwm_freq_bits_keeps_ranges_witness :
  50 <= _pwm_freq (set_pwm_freq_bits 0 200 example_channel) <= 10000 /\
  8 <= _pwm_resolution_bits (set_pwm_freq_bits 0 200 example_channel) <= 16.
Proof.
  apply set_pwm_freq_bits_keeps_ranges; cbn; lia.
Defined.

Lemma set_pwm_low_high_levels_witness :
  duty_of example_low_high
    (snd (on true 0 (set_pwm_low_high 70000 65541 example_low_high)
            example_board)) = 5 /\
  duty_of example_low_high
    (snd (on false 0 (set_pwm_low_high 70000 65541 example_low_high)
            example_board)) = 4464.
Proof.
  apply (@set_pwm_low_high_levels example_header 70000 65541 0
           example_low_high example_board).
  - vm_compute. discriminate.
  - vm_compute. discriminate.
  - reflexivity.
Defined.


Lemma user_io_control_init_result_witness :
  sync_tasks (user_io_control_init example_firmware) = 1%nat /\
  objects (user_io_control_init example_firmware) !! 2 =
    Some (fst (init example_channel example_soc)) /\
  objects (user_io_control_init example_firmware) !! 4 = None.
Proof.
  destruct (@user_io_control_init_result example_header example_firmware)
    as (Ho & Hn & Ht & _).
  split; [|split].
  - apply Ht. exists 2, example_channel.
    repeat split; first [lia | reflexivity].
  - apply Ho; first [lia | reflexivity].
  - apply Hn. reflexivity.
Defined.

Lemma userIoSyncTask_keeps_off_channels_witness :
  pins (userIoSyncTask_passes 3 example_grbl) !! 2 = Some example_channel.
Proof.
  destruct (@userIoSyncTask_keeps_off_channels example_header 3 example_grbl)
    as (Hk & _).
  destruct (Hk 2 example_channel eq_refl) as (c' & Hc' & _ & Hoff).
  rewrite Hc'. f_equal. apply Hoff. reflexivity.
Defined.

Lemma sys_io_control_mask_bits_witness :
  sys_io_control 133 true 500 example_grbl =
  sys_io_control 4 true 500 example_grbl.
Proof.
  apply (@sys_io_control_mask_bits example_header).
  intros n Hn.
  assert (n = 1 \/ n = 2 \/ n = 3 \/ n = 4 \/ n = 5 \/ n = 6)
    as [-> | [-> | [-> | [-> | [-> | ->]]]]] by lia; reflexivity.
Defined.

Lemma on_on_off_ignores_duration_witness :
  on true 500 example_relay example_board =
    on true 0 example_relay example_board /\
  updates 7 (fst (on true 500 example_relay example_board))
    (snd (on true 500 example_relay example_board)) =
    on true 500 example_relay example_board.
Proof.
  destruct (@on_on_off_ignores_duration example_header true 500 0
              example_relay example_board 7) as (He & _ & _ & _ & _ & Hu).
  - reflexivity.
  - split; [exact He | exact Hu].
Defined.
